(** * Pair analytics: tick ingestion and the spread / z-score / correlation engine

    A shallow embedding of three Python modules:

    - [analytics_engine.py]  ([Module Engine]):   [compute_analytics(df, window)]
    - [app.py]               ([Module LiveView]): [resample_data], [compute_analytics(df1, df2, window)]
    - [data_ingestor.py]     ([Module Ingestor]): [normalize], [save_tick], [stream_symbol]

    Prices are IEEE-754 binary64 numbers (Python's [float]), embedded as Rocq's
    primitive floats.  Timestamps are integers counting nanoseconds since the
    epoch, the resolution of a pandas [Timestamp].  The pandas operations the
    modules call are collected in [Module Pandas]. *)

From Stdlib Require Import String Ascii.
From Stdlib Require Import ZArith List Bool Lia Floats Uint63 Permutation Sorted.
Import ListNotations.

Local Open Scope Z_scope.

(* ===================================================================== *)
(** ** Python values: exceptions and results *)
(* ===================================================================== *)

Module Py.

(** The exception classes that the modelled code can meet.  The last three
    derive from [BaseException] only; all others derive from [Exception]. *)
Inductive exn : Type :=
| ValueError
| TypeError
| KeyError
| AttributeError
| OverflowError
| JSONDecodeError
| OSError
| ConnectionResetError
| ConnectionClosed
| InvalidHandshake
| OperationalError
| CancelledError
| KeyboardInterrupt
| SystemExit.

(** [isinstance(e, Exception)]. *)
Definition is_Exception (e : exn) : bool :=
  match e with
  | CancelledError | KeyboardInterrupt | SystemExit => false
  | _ => true
  end.

(** [isinstance(e, (websockets.ConnectionClosed, ConnectionResetError))]. *)
Definition is_connection_lost (e : exn) : bool :=
  match e with
  | ConnectionClosed | ConnectionResetError => true
  | _ => false
  end.

(** The outcome of evaluating an expression: a value, or a raised exception. *)
Inductive result (A : Type) : Type :=
| Ok (a : A)
| Raise (e : exn).

Arguments Ok {A} a.
Arguments Raise {A} e.

Definition bind {A B} (r : result A) (k : A -> result B) : result B :=
  match r with
  | Ok a => k a
  | Raise e => Raise e
  end.

End Py.

Import Py.

Notation "x <- r ;; k" := (Py.bind r (fun x => k))
  (at level 61, r at next level, right associativity).

(* ===================================================================== *)
(** ** Floating-point cells *)
(* ===================================================================== *)

(** [pd.isna] on a float cell: NaN is the missing-value marker. *)
Definition isna (x : float) : bool := PrimFloat.is_nan x.

Definition notna (x : float) : bool := negb (isna x).

(** [np.isinf]. *)
Definition isinf (x : float) : bool := PrimFloat.is_infinity x.

(** An [int] converted to [float] (exact below 2^53). *)
Definition float_of_nat (n : nat) : float :=
  PrimFloat.of_uint63 (Uint63.of_Z (Z.of_nat n)).

(** Element-wise arithmetic of two columns that share one index. *)
Fixpoint zip_with {A B C} (f : A -> B -> C) (xs : list A) (ys : list B) : list C :=
  match xs, ys with
  | x :: xs', y :: ys' => f x y :: zip_with f xs' ys'
  | _, _ => []
  end.

(* ===================================================================== *)
(** ** The pandas operations used by the engine and the live view *)
(* ===================================================================== *)

Module Pandas.

(** A [Timestamp]: nanoseconds since the epoch. *)
Abbreviation Timestamp := Z (only parsing).

(** A column indexed by time: the rows of a [Series] with a [DatetimeIndex]. *)
Definition Series (A : Type) := list (Timestamp * A).

Definition index {A} (s : Series A) : list Timestamp := map fst s.
Definition values {A} (s : Series A) : list A := map snd s.

(** *** [sort_index] *)

Fixpoint insert_by {A} (key : A -> Z) (x : A) (l : list A) : list A :=
  match l with
  | [] => [x]
  | y :: l' => if key x <=? key y then x :: l else y :: insert_by key x l'
  end.

(** Rows ordered by key; rows with equal keys keep their relative order
    (the order pandas' own stable sort gives). *)
Definition sort_by {A} (key : A -> Z) (l : list A) : list A :=
  fold_right (insert_by key) [] l.

Definition sort_index {A} (s : Series A) : Series A := sort_by fst s.

(** *** [resample(freq)] *)

(** The left edge of the bin of width [freq] that holds [t]. *)
Definition bucket (freq : Z) (t : Timestamp) : Timestamp := (t / freq) * freq.

Definition first_time {A} (s : Series A) : Timestamp :=
  match s with
  | [] => 0
  | (t, _) :: _ => t
  end.

Definition last_time {A} (s : Series A) : Timestamp := first_time (rev s).

(** The bin labels: every grid point from the bin of the earliest row to the
    bin of the latest row, whether or not any row falls into it. *)
Definition bins {A} (freq : Z) (s : Series A) : list Timestamp :=
  match s with
  | [] => []
  | _ =>
      let lo := bucket freq (first_time s) in
      let hi := bucket freq (last_time s) in
      map (fun k => lo + Z.of_nat k * freq) (seq 0 (S (Z.to_nat ((hi - lo) / freq))))
  end.

(** The rows of one bin, in time order. *)
Definition members {A} (freq : Z) (b : Timestamp) (s : Series A) : list A :=
  values (filter (fun r => bucket freq (fst r) =? b) s).

(** [s.resample(freq).agg(f)]: the rows are put in time order, and every bin
    label gets the aggregate of its rows ([f []] for a bin with none). *)
Definition resample {A B} (freq : Z) (f : list A -> B) (s : Series A) : Series B :=
  let s := sort_index s in
  map (fun b => (b, f (members freq b s))) (bins freq s).

(** [last]: the last value of the group that is not missing, NaN if none. *)
Fixpoint last_valid (xs : list float) : float :=
  match xs with
  | [] => nan
  | x :: xs' =>
      let r := last_valid xs' in
      if isna r then (if isna x then nan else x) else r
  end.

(** [s.resample(freq).last()]. *)
Definition resample_last (freq : Z) (s : Series float) : Series float :=
  resample freq last_valid s.

(** A series lies on the uniform grid of width [freq] when its first label is
    a grid point and every later label is the one before it plus [freq]. *)
Fixpoint steps_from (freq : Z) (t : Timestamp) (times : list Timestamp) : bool :=
  match times with
  | [] => true
  | u :: rest => (u =? t) && steps_from freq (t + freq) rest
  end.

Definition on_grid {A} (freq : Z) (s : Series A) : bool :=
  (bucket freq (first_time s) =? first_time s) && steps_from freq (first_time s) (index s).

(** *** [pd.concat([a, b], axis=1)] *)

Definition lookup (t : Timestamp) (s : Series float) : float :=
  match find (fun r => fst r =? t) s with
  | Some (_, v) => v
  | None => nan
  end.

(** The outer join of two indexes. *)
Definition index_union (ia ib : list Timestamp) : list Timestamp :=
  sort_by (fun t => t) (nodup Z.eq_dec (ia ++ ib)).

(** One row per label of either column; a column that has no row at a label
    contributes NaN there. *)
Definition concat_axis1 (a b : Series float) : Series (float * float) :=
  map (fun t => (t, (lookup t a, lookup t b))) (index_union (index a) (index b)).

(** *** [rolling(window)] *)

(** [Series.rolling(window)]: the window must be a non-negative integer;
    [min_periods] defaults to the window size. *)
Definition rolling (window : Z) : result nat :=
  if window <? 0 then Raise ValueError else Ok (Z.to_nat window).

(** Infinite entries are turned into NaN before any window is evaluated. *)
Definition prep_values (xs : list float) : list float :=
  map (fun x => if isinf x then nan else x) xs.

(** The trailing window that ends at position [i]: positions
    [max 0 (i+1-w) .. i]. *)
Definition window_at {A} (w : nat) (xs : list A) (i : nat) : list A :=
  skipn (S i - w) (firstn (S i) xs).

(** The observations of a window: its entries that are not NaN. *)
Definition observations (xs : list float) : list float := filter notna xs.

Definition fsum (xs : list float) : float :=
  fold_left PrimFloat.add xs 0%float.

(** One result per position, computed from the window ending there. *)
Definition roll {A} (stat : list A -> float) (w : nat) (xs : list A) : list float :=
  map (fun i => stat (window_at w xs i)) (seq 0 (length xs)).

(** Mean of a window: NaN unless it holds at least [minp] observations and
    at least one. *)
Definition calc_mean (minp : nat) (win : list float) : float :=
  let obs := observations win in
  let nobs := length obs in
  if (minp <=? nobs)%nat && (0 <? nobs)%nat
  then (fsum obs / float_of_nat nobs)%float
  else nan.

(** Sum of squared differences from the mean, accumulated one observation at
    a time (Welford's update). *)
Definition add_var (st : nat * float * float) (val : float) : nat * float * float :=
  let '(nobs, mean_x, ssqdm_x) := st in
  let nobs := S nobs in
  let delta := (val - mean_x)%float in
  let mean_x := (mean_x + delta / float_of_nat nobs)%float in
  (nobs, mean_x, (ssqdm_x + (val - mean_x) * delta)%float).

Definition ssqdm (obs : list float) : float :=
  snd (fold_left add_var obs (0%nat, 0%float, 0%float)).

Definition all_same (obs : list float) : bool :=
  match obs with
  | [] => true
  | x :: rest => forallb (fun y => PrimFloat.eqb y x) rest
  end.

(** Variance of a window with [ddof] delta degrees of freedom: NaN unless it
    holds at least [minp] observations and more than [ddof]. *)
Definition calc_var (minp ddof : nat) (win : list float) : float :=
  let obs := observations win in
  let nobs := length obs in
  if (minp <=? nobs)%nat && (ddof <? nobs)%nat
  then
    if (nobs =? 1)%nat || all_same obs
    then 0%float
    else (ssqdm obs / (float_of_nat nobs - float_of_nat ddof))%float
  else nan.

(** Square root, with negative input mapped to zero. *)
Definition zsqrt (x : float) : float :=
  if PrimFloat.ltb x 0%float then 0%float else PrimFloat.sqrt x.

Definition roll_mean (w minp : nat) (xs : list float) : list float :=
  roll (calc_mean minp) w xs.

Definition roll_var (w minp ddof : nat) (xs : list float) : list float :=
  roll (calc_var minp ddof) w xs.

(** [s.rolling(w).mean()]. *)
Definition rolling_mean (w : nat) (xs : list float) : list float :=
  roll_mean w w (prep_values xs).

(** [s.rolling(w).std()]: the sample standard deviation ([ddof = 1]). *)
Definition rolling_std (w : nat) (xs : list float) : list float :=
  map zsqrt (roll_var w w 1 (prep_values xs)).

(** The number of positions of a window at which both columns are observed. *)
Definition count_valid (win : list float) : float :=
  float_of_nat (length (observations win)).

(** [x.rolling(w).corr(y)]: Pearson correlation over the trailing window.
    Each column is first blanked where the other is missing or infinite. *)
Definition rolling_corr (w : nat) (x y : list float) : list float :=
  let X := zip_with (fun a b => (a + 0 * b)%float) x y in
  let Y := zip_with (fun a b => (b + 0 * a)%float) x y in
  let x_array := prep_values X in
  let y_array := prep_values Y in
  let ddof := 1%float in
  let mean_x_y := roll_mean w w (zip_with PrimFloat.mul x_array y_array) in
  let mean_x := roll_mean w w x_array in
  let mean_y := roll_mean w w y_array in
  let count_x_y := roll count_valid w (zip_with PrimFloat.add x_array y_array) in
  let x_var := roll_var w w 1 x_array in
  let y_var := roll_var w w 1 y_array in
  let numerator :=
    zip_with
      (fun c n => (c * (n / (n - ddof)))%float)
      (zip_with PrimFloat.sub mean_x_y (zip_with PrimFloat.mul mean_x mean_y))
      count_x_y in
  let denominator := map PrimFloat.sqrt (zip_with PrimFloat.mul x_var y_var) in
  zip_with PrimFloat.div numerator denominator.

(** [s.fillna(v)]. *)
Definition fillna (v : float) (xs : list float) : list float :=
  map (fun x => if isna x then v else x) xs.

End Pandas.

(* ===================================================================== *)
(** ** analytics_engine.py *)
(* ===================================================================== *)

Module Engine.

Import Pandas.

(** A cell of the [ts] column: text as read from the tick store, a parsed
    timestamp, or the missing timestamp [NaT]. *)
Inductive ts_cell : Type :=
| TsText (s : string)
| TsStamp (t : Timestamp)
| NaT.

(** One row of the tick frame: columns [ts, symbol, price, size]. *)
Record Tick : Type := mkTick {
  ts : ts_cell;
  symbol : string;
  price : float;
  size : float
}.

Definition DataFrame := list Tick.

(** One row of the returned frame: columns
    [time, price_btc, price_eth, spread, zscore, rolling_corr]. *)
Record Row : Type := mkRow {
  time : Timestamp;
  price_btc : float;
  price_eth : float;
  spread : float;
  zscore : float;
  rolling_corr : float
}.

(** What [compute_analytics] returns: [pd.DataFrame()] (no columns, no rows)
    or the six-column analytics frame. *)
Inductive Frame : Type :=
| EmptyDataFrame
| Analytics (rows : list Row).

Definition frame_rows (f : Frame) : list Row :=
  match f with
  | EmptyDataFrame => []
  | Analytics rows => rows
  end.

(** [df.empty]. *)
Definition empty {A} (df : list A) : bool :=
  match df with
  | [] => true
  | _ => false
  end.

(** [str.lower] on the ASCII letters. *)
Definition lower_ascii (c : ascii) : ascii :=
  let n := nat_of_ascii c in
  if (65 <=? n)%nat && (n <=? 90)%nat then ascii_of_nat (n + 32) else c.

Fixpoint str_lower (s : string) : string :=
  match s with
  | EmptyString => EmptyString
  | String c s' => String (lower_ascii c) (str_lower s')
  end.

(** The rows of the input that carry a symbol, whatever its letter case. *)
Definition symbol_ticks (name : string) (df : DataFrame) : DataFrame :=
  filter (fun r => String.eqb (str_lower (symbol r)) name) df.

(** A tick with its symbol respelled by [g]. *)
Definition rename_symbol (g : string -> string) (r : Tick) : Tick :=
  mkTick (ts r) (g (symbol r)) (price r) (size r).

(** The resampling interval ["1S"], in nanoseconds. *)
Definition one_second : Z := 1000000000.

Section WithParser.

(** The timestamp parser behind [pd.to_datetime] on text: the instant the
    text denotes, or [None] when it cannot be read. *)
Variable parse_datetime : string -> option Timestamp.

(** [pd.to_datetime(cell, errors="coerce")]: text that cannot be read
    becomes [NaT]. *)
Definition to_datetime (c : ts_cell) : ts_cell :=
  match c with
  | TsText s =>
      match parse_datetime s with
      | Some t => TsStamp t
      | None => NaT
      end
  | TsStamp t => TsStamp t
  | NaT => NaT
  end.

(** [df["ts"]]. *)
Definition ts_column (df : DataFrame) : list ts_cell := map ts df.

(** [df["ts"] = col]: the frame with its [ts] column replaced. *)
Definition set_ts_column (df : DataFrame) (col : list ts_cell) : DataFrame :=
  zip_with (fun r c => mkTick c (symbol r) (price r) (size r)) df col.

Definition ts_isna (c : ts_cell) : bool :=
  match c with
  | NaT => true
  | _ => false
  end.

(** [df.dropna(subset=["ts", "price"])]. *)
Definition dropna_ts_price (df : DataFrame) : DataFrame :=
  filter (fun r => negb (ts_isna (ts r)) && notna (price r)) df.

(** [df.set_index("ts")] on a frame whose [ts] cells are timestamps, as they
    all are after [to_datetime] and [dropna]. *)
Definition set_index_ts (df : DataFrame) : Series Tick :=
  flat_map (fun r => match ts r with TsStamp t => [(t, r)] | _ => [] end) df.

(** Line 28: [df.dropna(subset=["ts", "price"]).set_index("ts").sort_index()]. *)
Definition clean (df : DataFrame) : Series Tick :=
  sort_index (set_index_ts (dropna_ts_price df)).

(** [df[df["symbol"].str.lower() == name]]. *)
Definition by_symbol (name : string) (df : Series Tick) : Series Tick :=
  filter (fun r => String.eqb (str_lower (symbol (snd r))) name) df.

(** [df["price"]]. *)
Definition price_column (df : Series Tick) : Series float :=
  map (fun r => (fst r, price (snd r))) df.

Definition both_present (r : Timestamp * (float * float)) : bool :=
  notna (fst (snd r)) && notna (snd (snd r)).

(** Lines 39-43: both price columns resampled to one-second bins (last price
    of each second), joined side by side, rows with a missing side dropped. *)
Definition align (df_btc df_eth : Series Tick) : Series (float * float) :=
  let btc_1s := resample_last one_second (price_column df_btc) in
  let eth_1s := resample_last one_second (price_column df_eth) in
  filter both_present (concat_axis1 btc_1s eth_1s).

(** Line 50. *)
Definition spread_column (merged : Series (float * float)) : list float :=
  map (fun r => (fst (snd r) - snd (snd r))%float) merged.

(** Lines 52-64: the [zscore] and [rolling_corr] columns. *)
Definition score_columns (merged : Series (float * float)) (window : Z)
  : result (list float * list float) :=
  let spread := spread_column merged in
  if Z.of_nat (length merged) >=? window then
    w <- rolling window ;;
    let mean_spread := rolling_mean w spread in
    let std_spread := rolling_std w spread in
    let zscore := zip_with PrimFloat.div (zip_with PrimFloat.sub spread mean_spread) std_spread in
    let corr := Pandas.rolling_corr w (map fst (values merged)) (map snd (values merged)) in
    Ok (zscore, corr)
  else
    Ok (map (fun _ => 0%float) merged, map (fun _ => 0%float) merged).

(** The frame [merged] with its three computed columns attached. *)
Fixpoint attach (merged : Series (float * float)) (spread zscore corr : list float)
  : list Row :=
  match merged, spread, zscore, corr with
  | (t, (b, e)) :: merged', s :: spread', z :: zscore', c :: corr' =>
      mkRow t b e s z c :: attach merged' spread' zscore' corr'
  | _, _, _, _ => []
  end.

(** Line 67: [merged.dropna()] on the six-column frame. *)
Definition complete (r : Row) : bool :=
  notna (price_btc r) && notna (price_eth r) && notna (spread r)
  && notna (zscore r) && notna (rolling_corr r).

(** Lines 50-70. *)
Definition analyse (merged : Series (float * float)) (window : Z) : result Frame :=
  cols <- score_columns merged window ;;
  let rows := attach merged (spread_column merged) (fst cols) (snd cols) in
  Ok (Analytics (filter complete rows)).

(** Lines 28-70, on the frame whose [ts] column has been converted. *)
Definition after_conversion (df : DataFrame) (window : Z) : result Frame :=
  let df := clean df in
  let df_btc := by_symbol "btcusdt" df in
  let df_eth := by_symbol "ethusdt" df in
  if empty df_btc || empty df_eth then Ok EmptyDataFrame else
  let merged := align df_btc df_eth in
  if empty merged then Ok EmptyDataFrame else
  analyse merged window.

(** [compute_analytics(df, window)] as a function of the frame's contents. *)
Definition compute_analytics (df : DataFrame) (window : Z) : result Frame :=
  if empty df then Ok EmptyDataFrame else
  let df := set_ts_column df (map to_datetime (ts_column df)) in
  after_conversion df window.

(** The aligned buckets of a tick frame: the rows of [merged]. *)
Definition aligned (df : DataFrame) : Series (float * float) :=
  let df := clean (set_ts_column df (map to_datetime (ts_column df))) in
  align (by_symbol "btcusdt" df) (by_symbol "ethusdt" df).

(** The prices of the valid ticks of a symbol that fall into the second
    starting at [b], in time order. *)
Definition second_prices (name : string) (b : Timestamp) (df : DataFrame) : list float :=
  let df := clean (set_ts_column df (map to_datetime (ts_column df))) in
  members one_second b (price_column (by_symbol name df)).

(** *** The same function on frame objects

    The caller passes a reference to a frame object.  Line 26 copies the
    object, line 27 assigns a column of the copy in place; every later
    statement builds a new object. *)

Definition loc := nat.
Definition heap := list DataFrame.

Definition deref (h : heap) (l : loc) : DataFrame := nth l h [].

(** [df.copy()]: a new object with the same contents. *)
Definition df_copy (l : loc) (h : heap) : loc * heap :=
  (length h, h ++ [deref h l]).

Fixpoint update (h : heap) (l : loc) (df : DataFrame) : heap :=
  match h, l with
  | [], _ => []
  | _ :: h', O => df :: h'
  | x :: h', S l' => x :: update h' l' df
  end.

(** [df["ts"] = col], in place on the object at [l]. *)
Definition setitem_ts (l : loc) (col : list ts_cell) (h : heap) : heap :=
  update h l (set_ts_column (deref h l) col).

Definition compute_analytics_call (df : loc) (window : Z) (h : heap)
  : result Frame * heap :=
  if empty (deref h df) then (Ok EmptyDataFrame, h) else
  let '(df, h) := df_copy df h in
  let h := setitem_ts df (map to_datetime (ts_column (deref h df))) h in
  (after_conversion (deref h df) window, h).

End WithParser.

End Engine.

(* ===================================================================== *)
(** ** app.py: the live view *)
(* ===================================================================== *)

Module LiveView.

Import Pandas.

(** The choices of the "Resample Timeframe" select box. *)
Inductive timeframe : Type :=
| tf_1s
| tf_1Min
| tf_5Min.

(** The bin width of a timeframe, in nanoseconds. *)
Definition freq (tf : timeframe) : Z :=
  match tf with
  | tf_1s => 1000000000
  | tf_1Min => 60 * 1000000000
  | tf_5Min => 300 * 1000000000
  end.

(** [Timestamp.round(freq)]: the nearest grid point, a tie going to the even
    multiple. *)
Definition round_to (f : Z) (t : Timestamp) : Timestamp :=
  let q := t / f in
  let r := t mod f in
  if 2 * r <? f then q * f
  else if f <? 2 * r then (q + 1) * f
  else if Z.even q then q * f else (q + 1) * f.

(** What [resample_data] returns: [pd.DataFrame()] (no columns), or a frame
    indexed by time with columns [price] and [size]. *)
Inductive Resampled : Type :=
| NoData
| Bars (rows : Series (float * float)).

(** The aggregation [{"price": "last", "size": "sum"}] of one bin. *)
Definition agg_last_sum (group : list (float * float)) : float * float :=
  (last_valid (map fst group), fsum (observations (map snd group))).

(** [resample_data(df, symbol, timeframe)]; [df] is the frame [load_ticks]
    returns, whose [ts] cells are timestamps or [NaT].  Rows labelled [NaT]
    belong to no bin. *)
Definition resample_data (df : Engine.DataFrame) (symbol : string) (tf : timeframe)
  : Resampled :=
  let df := filter (fun r => String.eqb (Engine.symbol r) symbol) df in
  if Engine.empty df then NoData else
  let indexed := map (fun r => (fst r, (Engine.price (snd r), Engine.size (snd r))))
                     (Engine.set_index_ts df) in
  let bars := resample (freq tf) agg_last_sum indexed in
  let bars := filter (fun r => notna (fst (snd r)) && notna (snd (snd r))) bars in
  Bars (map (fun r => (round_to (freq tf) (fst r), snd r)) bars).

(** [df["price"]]: a [KeyError] on the frame without columns. *)
Definition price_column (df : Resampled) : result (Series float) :=
  match df with
  | NoData => Raise KeyError
  | Bars rows => Ok (map (fun r => (fst r, fst (snd r))) rows)
  end.

(** The five values [compute_analytics] returns when the pair overlaps. *)
Record Output : Type := mkOutput {
  df_pair : Series (float * float);
  spread : list float;
  zscore : list float;
  hedge_ratio : float;
  rolling_corr : list float
}.

Section WithRegression.

(** [sm.OLS(p1, sm.add_constant(p2)).fit().params["p2"]]: the slope of the
    least-squares line of [p1] on [p2], as statsmodels computes it. *)
Variable ols_slope : Series (float * float) -> result float.

(** [compute_analytics(df1, df2, window)]; [None] stands for the tuple of
    five [None]s. *)
Definition compute_analytics (df1 df2 : Resampled) (window : Z)
  : result (option Output) :=
  p1 <- price_column df1 ;;
  p2 <- price_column df2 ;;
  let df := filter Engine.both_present (concat_axis1 p1 p2) in
  if Engine.empty df then Ok None else
  hedge_ratio <- ols_slope df ;;
  let spread := map (fun r => (fst (snd r) - hedge_ratio * snd (snd r))%float) df in
  w <- rolling window ;;
  let zscore :=
    zip_with PrimFloat.div
      (zip_with PrimFloat.sub spread (rolling_mean w spread))
      (rolling_std w spread) in
  let zscore := fillna 0%float zscore in
  let rolling_corr :=
    Pandas.rolling_corr w (map fst (values df)) (map snd (values df)) in
  Ok (Some (mkOutput df spread zscore hedge_ratio rolling_corr)).

End WithRegression.

(** [str.upper] on the ASCII letters. *)
Definition upper_ascii (c : ascii) : ascii :=
  let n := nat_of_ascii c in
  if (97 <=? n)%nat && (n <=? 122)%nat then ascii_of_nat (n - 32) else c.

Fixpoint str_upper (s : string) : string :=
  match s with
  | EmptyString => EmptyString
  | String c s' => String (upper_ascii c) (str_upper s')
  end.

(** The side of an alert. *)
Inductive direction : Type :=
| UP
| DOWN.

(** One entry of [st.session_state["alerts"]]. *)
Record Alert : Type := mkAlert {
  alert_time : string;
  alert_zscore : float;
  alert_symbol_1 : string;
  alert_symbol_2 : string;
  alert_direction : direction
}.

Section WithClock.

(** [datetime.now().strftime("%H:%M:%S")] at the time of the refresh. *)
Variable now : string.

(** [round(z, 3)]. *)
Variable round3 : float -> float.

(** Lines 229-237: the alert history after one refresh.  An entry is added
    when the z-score series has a value and the absolute value of its last
    entry exceeds the threshold. *)
Definition record_alert (symbol_1 symbol_2 : string) (z_alert : float)
  (zscore : list float) (alerts : list Alert) : list Alert :=
  if negb (Engine.empty (filter notna zscore))
     && PrimFloat.ltb z_alert (PrimFloat.abs (last zscore 0%float))
  then
    let z := last zscore 0%float in
    alerts ++ [mkAlert now (round3 z) (str_upper symbol_1) (str_upper symbol_2)
                 (if PrimFloat.ltb 0%float z then UP else DOWN)]
  else alerts.

End WithClock.

End LiveView.

(* ===================================================================== *)
(** ** data_ingestor.py *)
(* ===================================================================== *)

Module Ingestor.

(** A decoded JSON document. *)
#[local] Unset Elimination Schemes.
Inductive json : Type :=
| JNull
| JBool (b : bool)
| JInt (z : Z)
| JReal (f : float)
| JStr (s : string)
| JList (items : list json)
| JDict (items : list (string * json)).
#[local] Set Elimination Schemes.

(** A WebSocket message as [json.loads] reads it: text that is not JSON, or
    a document. *)
Inductive frame : Type :=
| Garbled (text : string)
| Doc (data : json).

(** [json.loads(message)]. *)
Definition json_loads (message : frame) : result json :=
  match message with
  | Garbled _ => Raise JSONDecodeError
  | Doc data => Ok data
  end.

Definition dict_lookup (items : list (string * json)) (key : string) : option json :=
  match find (fun kv => String.eqb (fst kv) key) items with
  | Some (_, v) => Some v
  | None => None
  end.

(** [data.get(key, default)]: only a dict has the method. *)
Definition get (data : json) (key : string) (default : json) : result json :=
  match data with
  | JDict items =>
      Ok (match dict_lookup items key with
          | Some v => v
          | None => default
          end)
  | _ => Raise AttributeError
  end.

(** [msg[key]] on a dict. *)
Definition getitem (msg : json) (key : string) : result json :=
  match msg with
  | JDict items =>
      match dict_lookup items key with
      | Some v => Ok v
      | None => Raise KeyError
      end
  | _ => Raise TypeError
  end.

(** [v == "trade"]. *)
Definition is_trade (v : json) : bool :=
  match v with
  | JStr s => String.eqb s "trade"
  | _ => false
  end.

(** An [int] as a [float], rounded to nearest; too large a magnitude
    overflows. *)
Definition float_of_Z (z : Z) : result float :=
  let f := SF2Prim (binary_normalize prec emax z 0 false) in
  if isinf f then Raise OverflowError else Ok f.

(** The tick that [normalize] builds. *)
Record tick : Type := mkTick {
  tick_ts : string;
  tick_price : float;
  tick_size : float
}.

(** A row of the [ticks] table: [(ts, symbol, price, size)]. *)
Record stored : Type := mkStored {
  ts : string;
  symbol : string;
  price : float;
  size : float
}.

(** What the connector prints and how long it sleeps, in order. *)
Inductive effect : Type :=
| PrintConnected
| PrintTick
| PrintConnectionLost
| PrintError
| Sleep (seconds : Z).

(** The table and the effects so far. *)
Record world : Type := mkWorld {
  ticks : list stored;
  trace : list effect
}.

Definition emit (e : effect) (w : world) : world :=
  mkWorld (ticks w) (trace w ++ [e]).

(** [save_tick(symbol, tick)]: the row is inserted and committed.  The table
    is append-only; a failing database is not part of the model. *)
Definition save_tick (sym : string) (t : tick) (w : world) : world :=
  mkWorld (ticks w ++ [mkStored (tick_ts t) sym (tick_price t) (tick_size t)]) (trace w).

(** One connection attempt as the feed answers it: [websockets.connect]
    raises, or the connection opens, delivers the messages of [inbox] for as
    long as the connector keeps reading, and then ends, normally ([None]) or
    with an exception raised by the message iterator. *)
Inductive session : Type :=
| Refused (e : exn)
| Opened (inbox : list frame) (closing : option exn).

(** The connector between two connection attempts, or ended by an exception
    that left the coroutine. *)
Inductive status : Type :=
| Reconnecting
| Stopped (e : exn).

(** The durations of the sleeps of a trace, in order. *)
Definition backoffs (tr : list effect) : list Z :=
  flat_map (fun e => match e with Sleep n => [n] | _ => [] end) tr.

Section WithRuntime.

(** [float(s)] on text: the number the text denotes, if it denotes one. *)
Variable float_of_text : string -> option float.

(** [datetime.fromtimestamp(x, tz=IST).isoformat()] for [x] seconds since
    the epoch; it raises when [x] is out of the platform's range. *)
Variable fromtimestamp_isoformat : float -> result string.

(** [float(v)]. *)
Definition py_float (v : json) : result float :=
  match v with
  | JReal f => Ok f
  | JInt z => float_of_Z z
  | JBool b => Ok (if b then 1%float else 0%float)
  | JStr s =>
      match float_of_text s with
      | Some f => Ok f
      | None => Raise ValueError
      end
  | _ => Raise TypeError
  end.

(** [v / 1000]: true division, defined on numbers only.  For an [int] the
    quotient is taken after conversion to [float], which is the correctly
    rounded quotient whenever the integer is below 2^53 in magnitude, as a
    millisecond timestamp is. *)
Definition div_1000 (v : json) : result float :=
  match v with
  | JReal f => Ok (f / 1000)%float
  | JInt z => f <- float_of_Z z ;; Ok (f / 1000)%float
  | JBool b => Ok ((if b then 1 else 0) / 1000)%float
  | _ => Raise TypeError
  end.

(** [normalize(msg)]. *)
Definition normalize (msg : json) : result tick :=
  e <- get msg "E" JNull ;;
  t <- get msg "T" e ;;
  secs <- div_1000 t ;;
  ts <- fromtimestamp_isoformat secs ;;
  p <- getitem msg "p" ;;
  price <- py_float p ;;
  q <- getitem msg "q" ;;
  size <- py_float q ;;
  Ok (mkTick ts price size).

(** Lines 54-56: what a message decodes to.  [None] is a message that is
    not a trade; an exception is whatever [json.loads], [data.get] or
    [normalize] raises. *)
Definition decode (message : frame) : result (option tick) :=
  data <- json_loads message ;;
  kind <- get data "e" JNull ;;
  if is_trade kind then
    t <- normalize data ;;
    Ok (Some t)
  else Ok None.

(** The body of the [async for] loop, for one message (lines 54-58). *)
Definition on_message (sym : string) (message : frame) (w : world)
  : result unit * world :=
  match decode message with
  | Raise e => (Raise e, w)
  | Ok None => (Ok tt, w)
  | Ok (Some t) => (Ok tt, emit PrintTick (save_tick sym t w))
  end.

(** [async for message in ws] (lines 53-58): the messages are handled in
    order; an exception ends the loop, and what is left of the inbox is
    never read. *)
Fixpoint receive (sym : string) (inbox : list frame) (closing : option exn) (w : world)
  : result unit * world :=
  match inbox with
  | [] =>
      (match closing with
       | None => Ok tt
       | Some e => Raise e
       end, w)
  | message :: rest =>
      match on_message sym message w with
      | (Ok _, w') => receive sym rest closing w'
      | (Raise e, w') => (Raise e, w')
      end
  end.

(** The [try] body (lines 51-58) against one connection attempt. *)
Definition connect_and_receive (sym : string) (s : session) (w : world)
  : result unit * world :=
  match s with
  | Refused e => (Raise e, w)
  | Opened inbox closing => receive sym inbox closing (emit PrintConnected w)
  end.

(** [stream_symbol(symbol)] against the connection attempts of [feed], one
    iteration of [while True] per attempt.  When the feed is used up the
    connector is about to connect again. *)
Fixpoint stream_symbol (sym : string) (feed : list session) (w : world)
  : status * world :=
  match feed with
  | [] => (Reconnecting, w)
  | s :: feed' =>
      match connect_and_receive sym s w with
      | (Ok _, w') => stream_symbol sym feed' w'
      | (Raise e, w') =>
          if is_connection_lost e then
            stream_symbol sym feed' (emit (Sleep 5) (emit PrintConnectionLost w'))
          else if is_Exception e then
            stream_symbol sym feed' (emit (Sleep 5) (emit PrintError w'))
          else (Stopped e, w')
      end
  end.

(** *** Vocabulary for statements about the connector *)

(** A message is malformed when handling it raises an [Exception]. *)
Definition malformed (message : frame) : bool :=
  match decode message with
  | Raise e => is_Exception e
  | Ok _ => false
  end.

(** A connection whose first message is malformed. *)
Definition starts_malformed (s : session) : bool :=
  match s with
  | Opened (message :: _) _ => malformed message
  | _ => false
  end.

(** The exception that ends an [async for] loop over [inbox], if any. *)
Fixpoint first_error (inbox : list frame) (closing : option exn) : option exn :=
  match inbox with
  | [] => closing
  | message :: rest =>
      match decode message with
      | Raise e => Some e
      | Ok _ => first_error rest closing
      end
  end.

(** The exception that a connection attempt raises in the [try] body. *)
Definition session_error (s : session) : option exn :=
  match s with
  | Refused e => Some e
  | Opened inbox closing => first_error inbox closing
  end.

(** A connection attempt that does not end in an exception outside
    [Exception] (a cancellation, a keyboard interrupt). *)
Definition survivable (s : session) : bool :=
  match session_error s with
  | Some e => is_Exception e
  | None => true
  end.

(** The connection attempts of a feed that end in an exception. *)
Definition failures (feed : list session) : nat :=
  length (filter (fun s => match session_error s with Some _ => true | None => false end) feed).

(** The row a tick is stored as by the connector of [sym]. *)
Definition to_row (sym : string) (t : tick) : stored :=
  mkStored (tick_ts t) sym (tick_price t) (tick_size t).

(** The trades of an inbox that the loop reads before it ends: those that
    come before the first message whose handling raises. *)
Fixpoint read_ticks (inbox : list frame) : list tick :=
  match inbox with
  | [] => []
  | message :: rest =>
      match decode message with
      | Raise _ => []
      | Ok None => read_ticks rest
      | Ok (Some t) => t :: read_ticks rest
      end
  end.

Definition session_ticks (s : session) : list tick :=
  match s with
  | Refused _ => []
  | Opened inbox _ => read_ticks inbox
  end.

End WithRuntime.

(** The way the network ends a connection attempt is no exception outside
    [Exception]. *)
Definition ends_in_Exception (s : session) : bool :=
  match s with
  | Refused e => is_Exception e
  | Opened _ None => true
  | Opened _ (Some e) => is_Exception e
  end.

End Ingestor.

(* ===================================================================== *)
(** ** Sample data *)
(* ===================================================================== *)

Module Sample.

Import Pandas.

(** A parser that reads no text: the sample frames hold timestamps. *)
Definition no_text (s : string) : option Timestamp := None.

(** 2024-01-01 09:00:00 UTC. *)
Definition nine_oclock : Timestamp := 1704099600 * Engine.one_second.

(** One BTC tick and one ETH tick at 09:00:00, priced 100 and 50. *)
Definition one_tick_each : Engine.DataFrame :=
  [ Engine.mkTick (Engine.TsStamp nine_oclock) "btcusdt" 100%float 0.5%float;
    Engine.mkTick (Engine.TsStamp nine_oclock) "ethusdt" 50%float 2%float ].

(** Ticks of both symbols over six seconds; ETH alone trades in the fifth. *)
Definition six_seconds : Engine.DataFrame :=
  let at_ (s ns : Z) := Engine.TsStamp (nine_oclock + s * Engine.one_second + ns) in
  [ Engine.mkTick (at_ 0 0) "BTCUSDT" 100%float 1%float;
    Engine.mkTick (at_ 0 5) "ETHUSDT" 50%float 1%float;
    Engine.mkTick (at_ 1 3) "BTCUSDT" 101%float 1%float;
    Engine.mkTick (at_ 1 5) "ETHUSDT" 52%float 1%float;
    Engine.mkTick (at_ 3 3) "btcusdt" 103%float 1%float;
    Engine.mkTick (at_ 3 5) "ethusdt" 51%float 1%float;
    Engine.mkTick (at_ 3 7) "btcusdt" 104%float 1%float;
    Engine.mkTick (at_ 4 5) "ethusdt" 51%float 1%float;
    Engine.mkTick (at_ 5 7) "btcusdt" 104%float 1%float;
    Engine.mkTick (at_ 5 5) "ethusdt" 55%float 1%float ].

(** Ticks of BTC only. *)
Definition btc_only : Engine.DataFrame :=
  [ Engine.mkTick (Engine.TsStamp nine_oclock) "btcusdt" 100%float 0.5%float;
    Engine.mkTick (Engine.TsText "not a time") "btcusdt" 101%float 0.5%float ].

(** A frame whose [ts] column is still text. *)
Definition text_frame : Engine.DataFrame :=
  [ Engine.mkTick (Engine.TsText "2024-01-01T14:30:00+05:30") "btcusdt" 100%float 0.5%float ].

(** One bar per symbol, as [resample_data] returns them. *)
Definition bars_btc : LiveView.Resampled := LiveView.Bars [(nine_oclock, (100%float, 0.5%float))].
Definition bars_eth : LiveView.Resampled := LiveView.Bars [(nine_oclock, (50%float, 2%float))].

(** A regression that reports the slope 2. *)
Definition slope_two (df : Series (float * float)) : result float := Ok 2%float.

(** The readings of the numerals that occur in [trade_doc]. *)
Definition read_float (s : string) : option float :=
  if String.eqb s "100.00" then Some 100%float
  else if String.eqb s "0.500" then Some 0.5%float
  else None.

(** The rendering of the one instant that occurs in [trade_doc]. *)
Definition render_time (x : float) : result string :=
  if PrimFloat.eqb x 1704099600%float then Ok "2024-01-01T14:30:00+05:30"%string
  else Raise OverflowError.

(** A trade message of the feed. *)
Definition trade_doc : Ingestor.json :=
  Ingestor.JDict
    [ ("e"%string, Ingestor.JStr "trade");
      ("E"%string, Ingestor.JInt 1704099600004);
      ("s"%string, Ingestor.JStr "BTCUSDT");
      ("t"%string, Ingestor.JInt 12345);
      ("p"%string, Ingestor.JStr "100.00");
      ("q"%string, Ingestor.JStr "0.500");
      ("T"%string, Ingestor.JInt 1704099600000);
      ("m"%string, Ingestor.JBool true) ].

(** The row that [trade_doc] is stored as. *)
Definition trade_row : Ingestor.stored :=
  Ingestor.mkStored "2024-01-01T14:30:00+05:30" "btcusdt" 100%float 0.5%float.

(** A thousand messages that are not JSON. *)
Definition garbage : list Ingestor.frame := repeat (Ingestor.Garbled "<html>") 1000.

(** The table and the trace before the connector starts. *)
Definition fresh : Ingestor.world := Ingestor.mkWorld [] [].

(** The thousand messages of [garbage], one per connection. *)
Definition one_per_connection : list Ingestor.session :=
  map (fun m => Ingestor.Opened [m] None) garbage.

(** A refused connection, a connection that delivers garbage, one that is
    lost after a trade, and one that closes normally after a trade. *)
Definition rough_feed : list Ingestor.session :=
  [ Ingestor.Refused OSError;
    Ingestor.Opened [Ingestor.Garbled "<html>"; Ingestor.Doc trade_doc] None;
    Ingestor.Opened [Ingestor.Doc trade_doc] (Some ConnectionClosed);
    Ingestor.Opened [Ingestor.Doc trade_doc] None ].

(** Three one-second bins, the middle one empty. *)
Definition gridded : Series float :=
  [ (nine_oclock, 100%float);
    (nine_oclock + Engine.one_second, nan);
    (nine_oclock + 2 * Engine.one_second, 101.5%float) ].

(** The rows that [six_seconds] yields with a window of two buckets. *)
Definition six_seconds_window_two : Engine.Frame :=
  Engine.Analytics
    [ Engine.mkRow (nine_oclock + Engine.one_second) 101%float 52%float 49%float
        (-0x1.6a09e667f3bccp-1)%float 1%float;
      Engine.mkRow (nine_oclock + 3 * Engine.one_second) 104%float 51%float 53%float
        0x1.6a09e667f3bccp-1%float (-1)%float ].


(** The bars of BTC in [six_seconds] at the one-second timeframe: only the
    rows spelled in lower case belong to the symbol. *)
Definition six_seconds_btc_bars : Series (float * float) :=
  [ (nine_oclock + 3 * Engine.one_second, (104%float, 2%float));
    (nine_oclock + 5 * Engine.one_second, (104%float, 1%float)) ].

(** What the live view returns for [bars_btc] and [bars_eth] with a window
    of ten buckets. *)
Definition one_bar_output : LiveView.Output :=
  LiveView.mkOutput [(nine_oclock, (100%float, 50%float))]
    [0%float] [0%float] 2%float [nan].

(** A rounding that changes nothing. *)
Definition keep_digits (x : float) : float := x.

(** The entries of [trade_doc]. *)
Definition trade_items : list (string * Ingestor.json) :=
  match trade_doc with
  | Ingestor.JDict items => items
  | _ => []
  end.

End Sample.

(* ===================================================================== *)
(** * Properties *)
(* ===================================================================== *)

(** ** NaN in binary64 arithmetic *)

Section FloatFacts.

Local Open Scope float_scope.

Lemma SFeqb_irrefl_nan (s : spec_float) : SFeqb s s = false -> s = S754_nan.
Proof.
  destruct s as [sg | sg | | sg m e]; try reflexivity; unfold SFeqb, SFcompare.
  - discriminate.
  - destruct sg; discriminate.
  - destruct sg; rewrite Z.compare_refl;
      try rewrite Pos.compare_cont_refl; simpl;
      rewrite ?Pos.compare_refl; simpl; discriminate.
Qed.

Lemma Prim2SF_isna (x : float) : isna x = true <-> Prim2SF x = S754_nan.
Proof.
  unfold isna, is_nan. rewrite FloatAxioms.eqb_spec. split.
  - intros H. apply negb_true_iff in H. now apply SFeqb_irrefl_nan.
  - intros ->. reflexivity.
Qed.

(** There is one NaN. *)
Lemma isna_eq_nan (x : float) : isna x = true -> x = nan.
Proof.
  intros H. apply Prim2SF_inj. apply Prim2SF_isna in H. now rewrite H.
Qed.

Lemma isna_nan : isna nan = true.
Proof. reflexivity. Qed.

Lemma sub_nan_r (x : float) : x - nan = nan.
Proof.
  apply isna_eq_nan, Prim2SF_isna. rewrite FloatAxioms.sub_spec.
  change (Prim2SF nan) with S754_nan. now destruct (Prim2SF x).
Qed.

Lemma div_nan_l (y : float) : nan / y = nan.
Proof.
  apply isna_eq_nan, Prim2SF_isna. rewrite FloatAxioms.div_spec.
  change (Prim2SF nan) with S754_nan. reflexivity.
Qed.

Lemma div_nan_r (x : float) : x / nan = nan.
Proof.
  apply isna_eq_nan, Prim2SF_isna. rewrite FloatAxioms.div_spec.
  change (Prim2SF nan) with S754_nan. now destruct (Prim2SF x).
Qed.

Lemma mul_nan_l (y : float) : nan * y = nan.
Proof.
  apply isna_eq_nan, Prim2SF_isna. rewrite FloatAxioms.mul_spec.
  change (Prim2SF nan) with S754_nan. reflexivity.
Qed.

Lemma sqrt_nan : PrimFloat.sqrt nan = nan.
Proof. reflexivity. Qed.

Lemma zsqrt_nan : Pandas.zsqrt nan = nan.
Proof. reflexivity. Qed.

End FloatFacts.

(** ** Lists, sorting and joining *)

Section ListFacts.

Context {A B C : Type}.

Lemma zip_with_length (f : A -> B -> C) (xs : list A) (ys : list B) :
  length (zip_with f xs ys) = Nat.min (length xs) (length ys).
Proof.
  revert ys. induction xs as [| x xs IH]; intros [| y ys]; simpl; auto.
Qed.

Lemma zip_with_nth (f : A -> B -> C) (xs : list A) (ys : list B) i dx dy d :
  (i < length xs)%nat -> (i < length ys)%nat ->
  nth i (zip_with f xs ys) d = f (nth i xs dx) (nth i ys dy).
Proof.
  revert ys i. induction xs as [| x xs IH]; intros [| y ys] [| i]; simpl; intros;
    try lia; auto.
  apply IH; lia.
Qed.

Lemma filter_none (p : A -> bool) (l : list A) :
  (forall x, In x l -> p x = false) -> filter p l = [].
Proof.
  induction l as [| x l IH]; simpl; intros H; auto.
  rewrite (H x) by auto. apply IH. auto.
Qed.

Lemma filter_length_le (p : A -> bool) (l : list A) :
  (length (filter p l) <= length l)%nat.
Proof.
  induction l as [| x l IH]; simpl; auto. destruct (p x); simpl; lia.
Qed.

End ListFacts.

Section SortFacts.

Import Pandas.

Context {A : Type} (key : A -> Z).

Lemma insert_by_perm (x : A) (l : list A) : Permutation (insert_by key x l) (x :: l).
Proof.
  induction l as [| y l IH]; simpl; auto.
  destruct (key x <=? key y); auto.
  rewrite IH. apply perm_swap.
Qed.

Lemma sort_by_perm (l : list A) : Permutation (sort_by key l) l.
Proof.
  induction l as [| x l IH]; simpl; auto.
  rewrite insert_by_perm. auto.
Qed.

Lemma sort_by_in (l : list A) (x : A) : In x (sort_by key l) <-> In x l.
Proof.
  split; apply Permutation_in; [| symmetry]; apply sort_by_perm.
Qed.

Lemma sort_by_length (l : list A) : length (sort_by key l) = length l.
Proof. apply Permutation_length, sort_by_perm. Qed.

(** A list already in strictly increasing key order is left as it is. *)
Lemma sort_by_increasing (l : list A) :
  StronglySorted (fun x y => key x < key y) l -> sort_by key l = l.
Proof.
  induction 1 as [| x l Hs IH Hx]; simpl; auto.
  rewrite IH. destruct l as [| y l]; simpl; auto.
  inversion Hx; subst.
  destruct (key x <=? key y) eqn:E; auto. apply Z.leb_gt in E. lia.
Qed.

End SortFacts.

Section JoinFacts.

Import Pandas.

Lemma index_union_NoDup (ia ib : list Timestamp) : NoDup (index_union ia ib).
Proof.
  unfold index_union.
  eapply Permutation_NoDup; [symmetry; apply sort_by_perm | apply NoDup_nodup].
Qed.

Lemma keyed_filter_NoDup {V} (g : Timestamp -> V) (p : Timestamp * V -> bool) l :
  NoDup l -> NoDup (index (filter p (map (fun t => (t, g t)) l))).
Proof.
  unfold index. induction 1 as [| t l Hn Hd IH]; simpl; [constructor |].
  destruct (p (t, g t)); simpl; auto.
  constructor; auto.
  intros Hin. apply Hn.
  apply in_map_iff in Hin. destruct Hin as [[t' v] [Ht Hin]]. simpl in Ht. subst t'.
  apply filter_In in Hin. destruct Hin as [Hin _].
  apply in_map_iff in Hin. destruct Hin as [u [Hu Hin]]. now inversion Hu; subst.
Qed.

Lemma resample_nil {X Y} (freq : Z) (f : list X -> Y) : resample freq f [] = [].
Proof. reflexivity. Qed.

Lemma concat_axis1_nil_l (b : Series float) :
  filter Engine.both_present (concat_axis1 [] b) = [].
Proof.
  apply filter_none. intros x Hx. unfold concat_axis1 in Hx.
  apply in_map_iff in Hx. destruct Hx as [t [<- _]]. reflexivity.
Qed.

Lemma concat_axis1_nil_r (a : Series float) :
  filter Engine.both_present (concat_axis1 a []) = [].
Proof.
  apply filter_none. intros x Hx. unfold concat_axis1 in Hx.
  apply in_map_iff in Hx. destruct Hx as [t [<- _]].
  unfold Engine.both_present. simpl. apply andb_false_r.
Qed.

End JoinFacts.

(** ** The analytics engine *)

Section EngineFacts.

Import Pandas Engine.

Variable parse : string -> option Timestamp.

Lemma align_nil_l (df_eth : Series Tick) : align [] df_eth = [].
Proof. unfold align. simpl. apply concat_axis1_nil_l. Qed.

Lemma align_nil_r (df_btc : Series Tick) : align df_btc [] = [].
Proof. unfold align. simpl. apply concat_axis1_nil_r. Qed.

Lemma empty_true {X} (l : list X) : empty l = true <-> l = [].
Proof. destruct l; simpl; split; congruence. Qed.

(** The early returns of [compute_analytics] are exactly the frames without
    an aligned bucket; every other frame reaches the computation of lines
    50-70 on its aligned buckets. *)
Lemma compute_analytics_unfold (df : DataFrame) (window : Z) :
  compute_analytics parse df window =
  if empty (aligned parse df) then Ok EmptyDataFrame
  else analyse (aligned parse df) window.
Proof.
  unfold compute_analytics, aligned, after_conversion.
  destruct df as [| r df]; [reflexivity |].
  cbv beta iota delta [empty] in |- *. fold (@empty Tick).
  set (c := clean _).
  destruct (by_symbol "btcusdt" c) as [| b bs] eqn:Eb.
  - cbn [empty orb]. rewrite align_nil_l. reflexivity.
  - destruct (by_symbol "ethusdt" c) as [| e es] eqn:Ee.
    + cbn [empty orb]. rewrite align_nil_r. reflexivity.
    + cbn [empty orb]. reflexivity.
Qed.

Lemma aligned_index_NoDup (df : DataFrame) : NoDup (index (aligned parse df)).
Proof.
  unfold aligned, align, concat_axis1.
  apply keyed_filter_NoDup with (g := fun t => (lookup t _, lookup t _)).
  apply index_union_NoDup.
Qed.

Lemma aligned_present (df : DataFrame) r :
  In r (aligned parse df) -> both_present r = true.
Proof.
  unfold aligned, align. intros H. apply filter_In in H. tauto.
Qed.

Lemma attach_length (m : Series (float * float)) (ss zs cs : list float) :
  (length (attach m ss zs cs) <= length m)%nat.
Proof.
  revert ss zs cs. induction m as [| [t [b e]] m IH]; intros ss zs cs; simpl; auto.
  destruct ss, zs, cs; simpl; try lia. specialize (IH ss zs cs). lia.
Qed.

(** Every attached row carries the prices of a row of [merged] and one cell
    of each computed column. *)
Lemma attach_in (m : Series (float * float)) (ss zs cs : list float) (r : Row) :
  In r (attach m ss zs cs) ->
  In (time r, (price_btc r, price_eth r)) m /\ In (spread r) ss
  /\ In (zscore r) zs /\ In (rolling_corr r) cs.
Proof.
  revert ss zs cs. induction m as [| [t [b e]] m IH]; intros ss zs cs; simpl; [tauto |].
  destruct ss as [| s ss], zs as [| z zs], cs as [| c cs]; simpl; try tauto.
  intros [<- | H]; simpl; [tauto |].
  apply IH in H. tauto.
Qed.

(** The spread cell attached to a row is the difference of that row's prices. *)
Lemma attach_spread (m : Series (float * float)) (zs cs : list float) (r : Row) :
  In r (attach m (spread_column m) zs cs) ->
  spread r = (price_btc r - price_eth r)%float.
Proof.
  revert zs cs. induction m as [| [t [b e]] m IH]; intros zs cs; simpl; [tauto |].
  destruct zs as [| z zs], cs as [| c cs]; simpl; try tauto.
  intros [<- | H]; simpl; [reflexivity |]. eapply IH; eauto.
Qed.

Lemma analyse_rows (m : Series (float * float)) (window : Z) (f : Frame) :
  analyse m window = Ok f ->
  exists zs cs, score_columns m window = Ok (zs, cs)
                /\ f = Analytics (filter complete (attach m (spread_column m) zs cs)).
Proof.
  unfold analyse. destruct (score_columns m window) as [[zs cs] | e]; simpl; [| discriminate].
  intros H. inversion H. eauto.
Qed.

(** What is known of every returned row, whichever branch produced it. *)
Lemma returned_row (df : DataFrame) (window : Z) (f : Frame) (r : Row) :
  compute_analytics parse df window = Ok f ->
  In r (frame_rows f) ->
  In (time r, (price_btc r, price_eth r)) (aligned parse df)
  /\ spread r = (price_btc r - price_eth r)%float
  /\ complete r = true.
Proof.
  rewrite compute_analytics_unfold.
  destruct (empty (aligned parse df)).
  - intros H; inversion H; subst. cbn [frame_rows In]. tauto.
  - intros H Hin. apply analyse_rows in H. destruct H as (zs & cs & _ & ->).
    cbn [frame_rows] in Hin. apply filter_In in Hin. destruct Hin as [Hin Hc].
    split; [| split; [| exact Hc]].
    + apply attach_in in Hin. tauto.
    + exact (attach_spread _ _ _ _ Hin).
Qed.

Lemma returned_length (df : DataFrame) (window : Z) (f : Frame) :
  compute_analytics parse df window = Ok f ->
  (length (frame_rows f) <= length (aligned parse df))%nat.
Proof.
  rewrite compute_analytics_unfold.
  destruct (empty (aligned parse df)).
  - intros H; inversion H; subst. cbn [frame_rows length]. lia.
  - intros H. apply analyse_rows in H. destruct H as (zs & cs & _ & ->).
    cbn [frame_rows].
    etransitivity; [apply filter_length_le | apply attach_length].
Qed.

Lemma set_ts_column_symbol (df : DataFrame) (col : list ts_cell) (r : Tick) :
  In r (set_ts_column df col) -> exists r0, In r0 df /\ symbol r0 = symbol r.
Proof.
  unfold set_ts_column. revert col.
  induction df as [| x df IH]; intros [| c col]; simpl; try tauto.
  intros [<- | H]; [exists x; auto |].
  apply IH in H. destruct H as [r0 [H1 H2]]. exists r0; auto.
Qed.

Lemma set_index_ts_in (df : DataFrame) (x : Timestamp * Tick) :
  In x (set_index_ts df) -> In (snd x) df.
Proof.
  unfold set_index_ts. intros H. apply in_flat_map in H.
  destruct H as [r [Hr Hx]]. destruct (ts r); simpl in Hx; try tauto.
  destruct Hx as [<- | []]. exact Hr.
Qed.

Lemma by_symbol_none (name : string) (df : DataFrame) :
  symbol_ticks name df = [] ->
  by_symbol name (clean (set_ts_column df (map (to_datetime parse) (ts_column df)))) = [].
Proof.
  intros Hnone. apply filter_none. intros [t r] Hin. simpl.
  apply sort_by_in in Hin. apply set_index_ts_in in Hin. simpl in Hin.
  apply filter_In in Hin. destruct Hin as [Hin _].
  apply set_ts_column_symbol in Hin. destruct Hin as [r0 [Hr0 Hs]].
  destruct (String.eqb (str_lower (symbol r)) name) eqn:E; auto.
  assert (Hm : In r0 (symbol_ticks name df)).
  { apply filter_In. split; auto. now rewrite Hs. }
  rewrite Hnone in Hm. destruct Hm.
Qed.

(** *** Frame objects *)

Lemma deref_fresh (h : heap) (df : DataFrame) : deref (h ++ [df]) (length h) = df.
Proof. unfold deref. rewrite app_nth2, Nat.sub_diag; auto. Qed.

Lemma update_fresh (h : heap) (old new : DataFrame) :
  update (h ++ [old]) (length h) new = h ++ [new].
Proof. induction h as [| x h IH]; simpl; auto. now rewrite IH. Qed.

Lemma deref_old (h : heap) (df : DataFrame) (l : loc) :
  (l < length h)%nat -> deref (h ++ [df]) l = deref h l.
Proof. intros H. unfold deref. now rewrite app_nth1. Qed.


End EngineFacts.

Section EngineClaims.

Import Pandas Engine.

Variable parse : string -> option Timestamp.

(** C1.  Degraded mode: when the frame has at least one aligned bucket but
    fewer than [window], [compute_analytics] returns the analytics frame (it
    does not raise), and every row of it has [zscore] exactly [0.0] and
    [rolling_corr] exactly [0.0]. *)
Theorem degraded_mode_reports_zero (df : DataFrame) (window : Z) :
  (1 <= length (aligned parse df))%nat ->
  Z.of_nat (length (aligned parse df)) < window ->
  exists rows,
    compute_analytics parse df window = Ok (Analytics rows)
    /\ Forall (fun r => zscore r = 0%float /\ rolling_corr r = 0%float) rows.
Proof.
  intros Hone Hlt. rewrite compute_analytics_unfold.
  destruct (aligned parse df) as [| m0 m] eqn:Em; [simpl in Hone; lia |].
  cbv beta iota delta [empty]. rewrite <- Em in *. clear Em m0 m.
  unfold analyse, score_columns.
  rewrite Z.geb_leb. apply Z.leb_gt in Hlt. rewrite Hlt. simpl.
  eexists. split; [reflexivity |].
  apply Forall_forall. intros r Hr.
  apply filter_In in Hr. destruct Hr as [Hr _].
  apply attach_in in Hr. destruct Hr as (_ & _ & Hz & Hc).
  apply in_map_iff in Hz. destruct Hz as [? [Hz _]].
  apply in_map_iff in Hc. destruct Hc as [? [Hc _]].
  split; congruence.
Qed.

(** C2.  Pure-spread variant: in every row that [compute_analytics] returns,
    [spread] is the binary64 difference [price_btc - price_eth]. *)
Theorem spread_is_price_difference (df : DataFrame) (window : Z) (f : Frame) :
  compute_analytics parse df window = Ok f ->
  Forall (fun r => spread r = (price_btc r - price_eth r)%float) (frame_rows f).
Proof.
  intros H. apply Forall_forall. intros r Hr.
  destruct (returned_row parse df window f r H Hr) as (_ & Hs & _). exact Hs.
Qed.

(** C4.  No ticks for BTC, no ticks for ETH, or no bucket in which both
    symbols were observed: in each case [compute_analytics] returns the empty
    frame [pd.DataFrame()], for every window, and raises nothing. *)
Theorem no_overlap_returns_empty (df : DataFrame) (window : Z) :
  symbol_ticks "btcusdt" df = [] \/ symbol_ticks "ethusdt" df = []
  \/ aligned parse df = [] ->
  compute_analytics parse df window = Ok EmptyDataFrame.
Proof.
  intros H. rewrite compute_analytics_unfold.
  assert (Ha : aligned parse df = []).
  { destruct H as [H | [H | H]]; auto; unfold aligned.
    - rewrite (by_symbol_none parse _ _ H). apply align_nil_l.
    - rewrite (by_symbol_none parse _ _ H). apply align_nil_r. }
  rewrite Ha. reflexivity.
Qed.

(** C5.  The returned frame has at most as many rows as there are distinct
    aligned buckets; every returned row sits on an aligned bucket and has a
    value (not NaN) for both [price_btc] and [price_eth]. *)
Theorem rows_within_aligned_buckets (df : DataFrame) (window : Z) (f : Frame) :
  compute_analytics parse df window = Ok f ->
  (length (frame_rows f) <= length (nodup Z.eq_dec (index (aligned parse df))))%nat
  /\ Forall (fun r => In (time r) (index (aligned parse df))
                      /\ isna (price_btc r) = false /\ isna (price_eth r) = false)
            (frame_rows f).
Proof.
  intros H. split.
  - rewrite nodup_fixed_point by apply aligned_index_NoDup.
    unfold index. rewrite length_map. eapply returned_length; eauto.
  - apply Forall_forall. intros r Hr.
    destruct (returned_row parse df window f r H Hr) as (Hin & _ & _).
    split.
    + unfold index. apply in_map_iff. eexists; split; [| exact Hin]. reflexivity.
    + apply aligned_present in Hin. unfold both_present, notna in Hin. simpl in Hin.
      apply andb_true_iff in Hin. destruct Hin as [H1 H2].
      apply negb_true_iff in H1, H2. auto.
Qed.

(** C10.  The call leaves the caller's frame object as it was: the heap after
    the call is the heap before it followed by the objects the call created,
    so the object the argument refers to has the same contents. *)
Theorem compute_analytics_keeps_argument (h : heap) (l : loc) (window : Z) :
  let h' := snd (compute_analytics_call parse l window h) in
  deref h' l = deref h l /\ firstn (length h) h' = h.
Proof.
  unfold compute_analytics_call, df_copy, setitem_ts.
  destruct (empty (deref h l)) eqn:E; simpl.
  - split; auto. apply firstn_all.
  - rewrite deref_fresh, update_fresh. split.
    + destruct (Nat.lt_ge_cases l (length h)) as [Hl | Hl].
      * now apply deref_old.
      * unfold deref in E. rewrite nth_overflow in E by exact Hl. discriminate.
    + rewrite firstn_app, Nat.sub_diag, firstn_all. simpl. apply app_nil_r.
Qed.

End EngineClaims.

(** ** Rolling windows that are not yet full *)

Section RollingFacts.

Import Pandas.

Lemma map_nth_lt {X Y} (f : X -> Y) (l : list X) i d d' :
  (i < length l)%nat -> nth i (map f l) d' = f (nth i l d).
Proof.
  revert i. induction l as [| x l IH]; intros [| i]; simpl; intros; try lia; auto.
  apply IH. lia.
Qed.

Lemma roll_length {X} (stat : list X -> float) w (xs : list X) :
  length (roll stat w xs) = length xs.
Proof. unfold roll. now rewrite length_map, length_seq. Qed.

Lemma roll_nth {X} (stat : list X -> float) w (xs : list X) i d :
  (i < length xs)%nat -> nth i (roll stat w xs) d = stat (window_at w xs i).
Proof.
  intros H. unfold roll.
  rewrite (map_nth_lt _ _ i 0%nat) by now rewrite length_seq.
  now rewrite seq_nth.
Qed.

Lemma window_at_length {X} w (xs : list X) i :
  (length (window_at w xs i) <= S i)%nat.
Proof.
  unfold window_at. rewrite length_skipn, length_firstn. lia.
Qed.

Lemma observations_length (win : list float) :
  (length (observations win) <= length win)%nat.
Proof. apply filter_length_le. Qed.

(** Fewer entries than [minp]: no mean. *)
Lemma calc_mean_short minp (win : list float) :
  (length win < minp)%nat -> calc_mean minp win = nan.
Proof.
  intros H. unfold calc_mean.
  pose proof (observations_length win) as Ho.
  destruct (minp <=? length (observations win))%nat eqn:E; [| reflexivity].
  apply Nat.leb_le in E. lia.
Qed.

(** Fewer entries than [minp]: no variance. *)
Lemma calc_var_short minp ddof (win : list float) :
  (length win < minp)%nat -> calc_var minp ddof win = nan.
Proof.
  intros H. unfold calc_var.
  pose proof (observations_length win) as Ho.
  destruct (minp <=? length (observations win))%nat eqn:E; [| reflexivity].
  apply Nat.leb_le in E. lia.
Qed.

Lemma prep_values_length (xs : list float) : length (prep_values xs) = length xs.
Proof. apply length_map. Qed.

Lemma rolling_mean_length w xs : length (rolling_mean w xs) = length xs.
Proof. unfold rolling_mean, roll_mean. now rewrite roll_length, prep_values_length. Qed.

Lemma rolling_std_length w xs : length (rolling_std w xs) = length xs.
Proof.
  unfold rolling_std, roll_var. now rewrite length_map, roll_length, prep_values_length.
Qed.

(** [rolling(w).mean()] is NaN at every position before the [w]-th. *)
Lemma rolling_mean_not_full w xs i d :
  (i < length xs)%nat -> (S i < w)%nat -> nth i (rolling_mean w xs) d = nan.
Proof.
  intros Hi Hw. unfold rolling_mean, roll_mean.
  rewrite roll_nth by now rewrite prep_values_length.
  apply calc_mean_short. pose proof (window_at_length w (prep_values xs) i). lia.
Qed.

Lemma rolling_corr_length w x y :
  length x = length y -> length (rolling_corr w x y) = length x.
Proof.
  intros E. unfold rolling_corr, roll_mean, roll_var.
  repeat (rewrite ?zip_with_length, ?length_map, ?roll_length, ?prep_values_length,
            <- ?E, ?Nat.min_id).
  reflexivity.
Qed.

(** [rolling(w).corr()] is NaN at every position before the [w]-th. *)
Lemma rolling_corr_not_full w x y i d :
  length x = length y -> (i < length x)%nat -> (S i < w)%nat ->
  nth i (rolling_corr w x y) d = nan.
Proof.
  intros E Hi Hw. unfold rolling_corr.
  set (X := prep_values (zip_with (fun a b => (a + 0 * b)%float) x y)).
  set (Y := prep_values (zip_with (fun a b => (b + 0 * a)%float) x y)).
  assert (HX : length X = length x).
  { unfold X. now rewrite prep_values_length, zip_with_length, <- E, Nat.min_id. }
  assert (HY : length Y = length x).
  { unfold Y. now rewrite prep_values_length, zip_with_length, <- E, Nat.min_id. }
  set (num := zip_with (fun c n => _) _ _).
  assert (Hnum : length num = length x).
  { unfold num, roll_mean.
    repeat (rewrite ?zip_with_length, ?roll_length, ?HX, ?HY, ?Nat.min_id). reflexivity. }
  rewrite (zip_with_nth _ _ _ i 0%float 0%float).
  2: now rewrite Hnum.
  2: { unfold roll_var.
       now rewrite length_map, zip_with_length, !roll_length, HX, HY, Nat.min_id. }
  rewrite (map_nth_lt _ _ i 0%float).
  2: { unfold roll_var. now rewrite zip_with_length, !roll_length, HX, HY, Nat.min_id. }
  rewrite (zip_with_nth _ _ _ i 0%float 0%float).
  2, 3: unfold roll_var; rewrite roll_length; lia.
  unfold roll_var at 1. rewrite roll_nth by lia.
  rewrite calc_var_short.
  2: { pose proof (window_at_length w X i). lia. }
  rewrite mul_nan_l, sqrt_nan. apply div_nan_r.
Qed.

End RollingFacts.

(** ** The live view *)

Section LiveViewClaims.

Import Pandas LiveView.

Variable ols : Series (float * float) -> result float.

(** C9 (as amended).  In the live view the two series differ before the
    window is full: at every aligned bucket that comes before the [window]-th
    one, [zscore] is [0.0] (the NaN was filled), while [rolling_corr] is NaN
    (nothing fills it). *)
Theorem live_view_before_window_full
  (df1 df2 : Resampled) (window : Z) (out : Output) (i : nat) :
  compute_analytics ols df1 df2 window = Ok (Some out) ->
  (i < length (df_pair out))%nat ->
  Z.of_nat (S i) < window ->
  nth i (zscore out) nan = 0%float /\ nth i (rolling_corr out) 0%float = nan.
Proof.
  unfold compute_analytics.
  destruct (price_column df1) as [p1 | e1]; simpl; [| discriminate].
  destruct (price_column df2) as [p2 | e2]; simpl; [| discriminate].
  set (df := filter Engine.both_present (concat_axis1 p1 p2)).
  destruct (Engine.empty df); [discriminate |].
  destruct (ols df) as [hr | e]; simpl; [| discriminate].
  unfold rolling. destruct (window <? 0) eqn:Ew; simpl; [discriminate |].
  intros H. inversion H; subst out; clear H. simpl.
  intros Hi Hw.
  assert (Hn : (S i < Z.to_nat window)%nat) by lia.
  set (sp := map _ df).
  assert (Hsp : length sp = length df) by (unfold sp; apply length_map).
  split.
  - unfold fillna.
    rewrite (map_nth_lt _ _ i 0%float).
    2: { rewrite !zip_with_length, rolling_mean_length, rolling_std_length, Hsp. lia. }
    rewrite (zip_with_nth _ _ _ i 0%float 0%float).
    2: { rewrite zip_with_length, rolling_mean_length, Hsp. lia. }
    2: { rewrite rolling_std_length, Hsp. lia. }
    rewrite (zip_with_nth _ _ _ i 0%float 0%float).
    2: lia.
    2: { rewrite rolling_mean_length. lia. }
    rewrite rolling_mean_not_full by lia.
    rewrite sub_nan_r, div_nan_l. reflexivity.
  - apply rolling_corr_not_full; unfold values; rewrite ?length_map; auto.
Qed.

End LiveViewClaims.

(** ** Resampling a series that is already on the grid *)

Section ResampleFacts.

Import Pandas.

Variable freq : Z.
Hypothesis freq_pos : 0 < freq.

Lemma bucket_shift (t k : Z) : bucket freq t = t -> bucket freq (t + k * freq) = t + k * freq.
Proof.
  unfold bucket. intros H. rewrite Z.div_add by lia. lia.
Qed.

Lemma bucket_bucket (t : Z) : bucket freq (bucket freq t) = bucket freq t.
Proof. unfold bucket. rewrite Z.div_mul by lia. reflexivity. Qed.

Lemma first_time_app {A} (l l' : Series A) : l <> [] -> first_time (l ++ l') = first_time l.
Proof. destruct l; simpl; congruence. Qed.

Lemma last_time_cons {A} (x : Timestamp * A) (s : Series A) :
  s <> [] -> last_time (x :: s) = last_time s.
Proof.
  intros H. unfold last_time. simpl. apply first_time_app.
  intros E. apply H. destruct s; [reflexivity |]. simpl in E.
  now apply app_eq_nil in E.
Qed.

(** What lying on the grid from [t] on means for the rows. *)
Lemma steps_from_spec {A} (s : Series A) (t : Timestamp) :
  steps_from freq t (index s) = true -> bucket freq t = t ->
  Forall (fun x => bucket freq (fst x) = fst x /\ t <= fst x) s
  /\ StronglySorted (fun x y => fst x < fst y) s
  /\ index s = map (fun k => t + Z.of_nat k * freq) (seq 0 (length s))
  /\ (s <> [] -> last_time s = t + Z.of_nat (length s - 1) * freq).
Proof.
  revert t. induction s as [| [u v] s IH]; intros t Hs Ht.
  - repeat split; try constructor. congruence.
  - simpl in Hs. apply andb_true_iff in Hs. destruct Hs as [Hu Hs].
    apply Z.eqb_eq in Hu. subst u.
    assert (Ht' : bucket freq (t + freq) = t + freq).
    { replace (t + freq) with (t + 1 * freq) by lia. now apply bucket_shift. }
    destruct (IH (t + freq) Hs Ht') as (Hall & Hsorted & Hidx & Hlast).
    split; [| split; [| split]].
    + constructor; [simpl; split; [exact Ht | lia] |].
      eapply Forall_impl; [| exact Hall]. intros x [? ?]; simpl. split; [assumption | lia].
    + constructor; [exact Hsorted |].
      eapply Forall_impl; [| exact Hall]. intros x [? ?]; simpl. lia.
    + unfold index in *. simpl. f_equal; [lia |]. rewrite Hidx.
      rewrite <- seq_shift, map_map. apply map_ext. intros k. lia.
    + intros _. destruct s as [| y s].
      * unfold last_time. simpl. lia.
      * rewrite last_time_cons by discriminate.
        rewrite Hlast by discriminate.
        replace (length ((t, v) :: y :: s) - 1)%nat with (S (length (y :: s) - 1))
          by (simpl; lia).
        rewrite Nat2Z.inj_succ. lia.
Qed.

Lemma steps_from_affine (t : Timestamp) (a n : nat) :
  steps_from freq (t + Z.of_nat a * freq)
    (map (fun k => t + Z.of_nat k * freq) (seq a n)) = true.
Proof.
  revert a. induction n as [| n IH]; intros a; simpl; [reflexivity |].
  rewrite Z.eqb_refl. simpl.
  replace (t + Z.of_nat a * freq + freq) with (t + Z.of_nat (S a) * freq) by lia.
  apply IH.
Qed.

Lemma sorted_index_NoDup {A} (s : Series A) :
  StronglySorted (fun x y => fst x < fst y) s -> NoDup (index s).
Proof.
  unfold index. induction 1 as [| x s Hs IH Hx]; simpl; constructor; auto.
  intros Hin. apply in_map_iff in Hin. destruct Hin as [y [Hy Hin]].
  rewrite Forall_forall in Hx. specialize (Hx y Hin). lia.
Qed.

(** In a series with distinct grid labels, the bin of a row holds that row
    alone. *)
Lemma members_alone {A} (pre post : Series A) (x : Timestamp * A) :
  NoDup (index (pre ++ x :: post)) ->
  Forall (fun r => bucket freq (fst r) = fst r) (pre ++ x :: post) ->
  members freq (fst x) (pre ++ x :: post) = [snd x].
Proof.
  intros Hnd Hg. unfold members, values. rewrite Forall_forall in Hg.
  unfold index in Hnd. rewrite map_app in Hnd. simpl in Hnd.
  apply NoDup_remove_2 in Hnd.
  rewrite filter_app. simpl.
  rewrite (Hg x) by (apply in_or_app; right; left; reflexivity).
  rewrite Z.eqb_refl.
  rewrite !filter_none; [reflexivity | |].
  - intros r Hr. rewrite (Hg r) by (apply in_or_app; right; right; exact Hr).
    apply Z.eqb_neq. intros E. apply Hnd. apply in_or_app. right.
    rewrite <- E. now apply in_map.
  - intros r Hr. rewrite (Hg r) by (apply in_or_app; left; exact Hr).
    apply Z.eqb_neq. intros E. apply Hnd. apply in_or_app. left.
    rewrite <- E. now apply in_map.
Qed.

Lemma last_valid_single (v : float) : last_valid [v] = v.
Proof.
  simpl. destruct (isna v) eqn:E; [| reflexivity].
  symmetry. now apply isna_eq_nan.
Qed.

Lemma bins_alone (pre s : Series float) :
  NoDup (index (pre ++ s)) ->
  Forall (fun r => bucket freq (fst r) = fst r) (pre ++ s) ->
  map (fun b => (b, last_valid (members freq b (pre ++ s)))) (index s) = s.
Proof.
  revert pre. induction s as [| [t v] s IH]; intros pre Hnd Hg; simpl; [reflexivity |].
  f_equal.
  - pose proof (members_alone pre s (t, v) Hnd Hg) as Hm. cbn [fst snd] in Hm.
    rewrite Hm. now rewrite last_valid_single.
  - specialize (IH (pre ++ [(t, v)])). rewrite <- app_assoc in IH. simpl in IH.
    now apply IH.
Qed.

(** The labels of the bins of a series on the grid are the labels of its rows. *)
Lemma bins_on_grid {A} (s : Series A) :
  on_grid freq s = true -> bins freq s = index s.
Proof.
  unfold on_grid. intros H. apply andb_true_iff in H. destruct H as [H0 Hs].
  apply Z.eqb_eq in H0.
  destruct (steps_from_spec s _ Hs H0) as (_ & _ & Hidx & Hlast).
  destruct s as [| [t v] s]; [reflexivity |].
  unfold bins. rewrite Hlast by discriminate. rewrite H0.
  simpl first_time in *. rewrite bucket_shift by exact H0.
  replace (t + Z.of_nat (length ((t, v) :: s) - 1) * freq - t)
    with (Z.of_nat (length s) * freq) by (simpl length; lia).
  rewrite Z.div_mul by lia. rewrite Nat2Z.id. exact (eq_sym Hidx).
Qed.

Lemma resample_last_on_grid (s : Series float) :
  on_grid freq s = true -> resample_last freq s = s.
Proof.
  intros H. pose proof (bins_on_grid s H) as Hb.
  unfold on_grid in H. apply andb_true_iff in H. destruct H as [H0 Hs].
  apply Z.eqb_eq in H0.
  destruct (steps_from_spec s _ Hs H0) as (Hall & Hsorted & _ & _).
  unfold resample_last, resample, sort_index.
  rewrite (sort_by_increasing fst s Hsorted). rewrite Hb.
  apply (bins_alone [] s).
  - simpl. now apply sorted_index_NoDup.
  - simpl. eapply Forall_impl; [| exact Hall]. simpl. tauto.
Qed.

(** Whatever is resampled, the result lies on the grid. *)
Lemma resample_is_on_grid {A B} (f : list A -> B) (s : Series A) :
  on_grid freq (resample freq f s) = true.
Proof.
  unfold resample. set (s' := sort_index s).
  unfold on_grid, index. rewrite map_map. simpl. rewrite map_id.
  unfold bins. destruct s' as [| x s']; [reflexivity |].
  set (lo := bucket freq (first_time (x :: s'))).
  set (n := Z.to_nat _).
  simpl. rewrite Z.add_0_r. unfold lo at 1 2. rewrite bucket_bucket, Z.eqb_refl.
  fold lo. rewrite Z.eqb_refl. simpl.
  replace (lo + freq) with (lo + Z.of_nat 1 * freq) by lia.
  apply steps_from_affine.
Qed.

End ResampleFacts.

(** C6.  Resampling is idempotent: a price series that already lies on the
    uniform grid of width [freq] is returned unchanged by
    [resample(freq).last()], and so resampling the result of a resampling
    gives that result again. *)
Theorem resample_last_idempotent (freq : Z) (s : Pandas.Series float) :
  0 < freq ->
  (Pandas.on_grid freq s = true -> Pandas.resample_last freq s = s)
  /\ Pandas.resample_last freq (Pandas.resample_last freq s) = Pandas.resample_last freq s.
Proof.
  intros Hf. split.
  - now apply resample_last_on_grid.
  - apply resample_last_on_grid; [exact Hf |].
    unfold Pandas.resample_last. now apply resample_is_on_grid.
Qed.

(** ** The one-bucket scenario *)

Section Scenario.

Import Pandas Engine.

Variable parse : string -> option Timestamp.

Lemma resample_last_single (f t : Z) (v : float) :
  resample_last f [(t, v)] = [(bucket f t, last_valid [v])].
Proof.
  unfold resample_last, resample, sort_index, sort_by, bins, last_time, members, values.
  cbn [fold_right insert_by rev app first_time].
  rewrite Z.sub_diag, Zdiv_0_l.
  cbn [Z.to_nat seq map Z.of_nat Z.mul filter fst snd].
  rewrite Z.add_0_r, Z.eqb_refl. reflexivity.
Qed.

Lemma nodup_twice (b : Z) : nodup Z.eq_dec [b; b] = [b].
Proof. simpl. destruct (Z.eq_dec b b); [reflexivity | congruence]. Qed.

(** One BTC tick at 100 and one ETH tick at 50 with the same timestamp make
    one aligned bucket. *)
Lemma aligned_one_tick_each (t : Timestamp) (sb se : float) :
  aligned parse
    [mkTick (TsStamp t) "btcusdt" 100%float sb; mkTick (TsStamp t) "ethusdt" 50%float se]
  = [(bucket one_second t, (100%float, 50%float))].
Proof.
  unfold aligned, clean, ts_column, set_ts_column, dropna_ts_price, set_index_ts.
  cbn [map zip_with to_datetime filter ts price symbol size ts_isna negb andb flat_map app].
  change (notna 100) with true. change (notna 50) with true.
  cbn [map zip_with to_datetime filter ts price symbol size ts_isna negb andb flat_map app].
  unfold sort_index, sort_by. cbn [fold_right insert_by fst]. rewrite Z.leb_refl.
  unfold by_symbol. cbn [filter snd symbol].
  change (String.eqb (str_lower "btcusdt") "btcusdt") with true.
  change (String.eqb (str_lower "ethusdt") "btcusdt") with false.
  change (String.eqb (str_lower "btcusdt") "ethusdt") with false.
  change (String.eqb (str_lower "ethusdt") "ethusdt") with true.
  cbn iota. unfold align, price_column. cbn [map fst snd price].
  rewrite !resample_last_single.
  change (last_valid [100%float]) with 100%float.
  change (last_valid [50%float]) with 50%float.
  unfold concat_axis1, index_union, index. cbn [map fst app].
  rewrite nodup_twice.
  cbn [sort_by fold_right insert_by map].
  unfold lookup. cbn [find fst]. rewrite Z.eqb_refl.
  cbn [filter]. reflexivity.
Qed.

(** C3 (as amended).  One BTC tick at 100 and one ETH tick at 50 in the same
    second.  With [window = 1] the window is full: the standard deviation of
    a single sample is NaN, so the only row is dropped and the returned frame
    has no rows.  With any [window >= 2] the frame is in degraded mode and
    holds exactly one row: spread 50, zscore 0.0, rolling_corr 0.0. *)
Theorem one_bucket_scenario (t : Timestamp) (size_btc size_eth : float) (window : Z) :
  let df := [mkTick (TsStamp t) "btcusdt" 100%float size_btc;
             mkTick (TsStamp t) "ethusdt" 50%float size_eth] in
  compute_analytics parse df 1 = Ok (Analytics [])
  /\ (2 <= window ->
      compute_analytics parse df window
      = Ok (Analytics [mkRow (bucket one_second t) 100%float 50%float 50%float
                             0%float 0%float])).
Proof.
  intros df. unfold df. rewrite !compute_analytics_unfold, aligned_one_tick_each.
  generalize (bucket one_second t). intros b. split.
  - vm_compute. reflexivity.
  - intros Hw. cbv beta iota delta [empty]. unfold analyse, score_columns.
    rewrite Z.geb_leb. replace (window <=? Z.of_nat (length [(b, (100%float, 50%float))]))
      with false by (symmetry; apply Z.leb_gt; simpl; lia).
    vm_compute. reflexivity.
Qed.

End Scenario.

(** ** The stream connector *)

Section ConnectorFacts.

Import Ingestor.

Variable float_of_text : string -> option float.
Variable fromtimestamp_isoformat : float -> result string.

Local Abbreviation decode := (decode float_of_text fromtimestamp_isoformat).
Local Abbreviation on_message := (on_message float_of_text fromtimestamp_isoformat).
Local Abbreviation receive := (receive float_of_text fromtimestamp_isoformat).
Local Abbreviation connect_and_receive := (connect_and_receive float_of_text fromtimestamp_isoformat).
Local Abbreviation stream_symbol := (stream_symbol float_of_text fromtimestamp_isoformat).
Local Abbreviation session_error := (session_error float_of_text fromtimestamp_isoformat).
Local Abbreviation first_error := (first_error float_of_text fromtimestamp_isoformat).
Local Abbreviation survivable := (survivable float_of_text fromtimestamp_isoformat).
Local Abbreviation failures := (failures float_of_text fromtimestamp_isoformat).
Local Abbreviation starts_malformed := (starts_malformed float_of_text fromtimestamp_isoformat).
Local Abbreviation malformed := (malformed float_of_text fromtimestamp_isoformat).

Lemma backoffs_emit (e : effect) (w : world) :
  backoffs (trace (emit e w)) = backoffs (trace w) ++ backoffs [e].
Proof. unfold backoffs, emit. simpl. now rewrite flat_map_app. Qed.

(** A message that is not a trade is passed over without any effect. *)
Lemma non_trade_skipped (sym : string) (m : frame) (w : world) :
  decode m = Ok None -> on_message sym m w = (Ok tt, w).
Proof. unfold Ingestor.on_message. now intros ->. Qed.

(** Handling a message never sleeps, and stores a row only for a trade. *)
Lemma on_message_spec (sym : string) (m : frame) (w : world) :
  let out := on_message sym m w in
  backoffs (trace (snd out)) = backoffs (trace w)
  /\ match decode m with
     | Raise e => out = (Raise e, w)
     | Ok None => out = (Ok tt, w)
     | Ok (Some t) =>
         fst out = Ok tt
         /\ ticks (snd out)
            = ticks w ++ [mkStored (tick_ts t) sym (tick_price t) (tick_size t)]
     end.
Proof.
  unfold Ingestor.on_message.
  destruct (decode m) as [[t |] | e]; cbv zeta; cbn [fst snd]; auto.
  rewrite backoffs_emit. simpl. rewrite app_nil_r. auto.
Qed.

Lemma receive_spec (sym : string) (inbox : list frame) (closing : option exn) (w : world) :
  let out := receive sym inbox closing w in
  backoffs (trace (snd out)) = backoffs (trace w)
  /\ fst out = match first_error inbox closing with
               | Some e => Raise e
               | None => Ok tt
               end.
Proof.
  revert w. induction inbox as [| m inbox IH]; intros w; simpl.
  - destruct closing; auto.
  - pose proof (on_message_spec sym m w) as [Hb Hm]. simpl in Hb, Hm.
    destruct (decode m) as [[t |] | e].
    + destruct (on_message sym m w) as [[[] | e'] w'] eqn:E; simpl in *.
      * destruct (IH w') as [IH1 IH2]. simpl in IH1, IH2.
        rewrite IH1, Hb. auto.
      * destruct Hm as [Hm _]. discriminate.
    + rewrite Hm. destruct (IH w) as [IH1 IH2]. auto.
    + rewrite Hm. auto.
Qed.

Lemma connect_and_receive_spec (sym : string) (s : session) (w : world) :
  let out := connect_and_receive sym s w in
  backoffs (trace (snd out)) = backoffs (trace w)
  /\ fst out = match session_error s with
               | Some e => Raise e
               | None => Ok tt
               end.
Proof.
  destruct s as [e | inbox closing]; cbv zeta.
  - simpl. auto.
  - unfold Ingestor.connect_and_receive, Ingestor.session_error.
    pose proof (receive_spec sym inbox closing (emit PrintConnected w)) as [H1 H2].
    cbv zeta in H1, H2. rewrite H1, H2, backoffs_emit. simpl. rewrite app_nil_r. auto.
Qed.

(** A connection that opens with a malformed message stores nothing. *)
Lemma malformed_session_stores_nothing (sym : string) (s : session) (w : world) :
  starts_malformed s = true ->
  exists e, connect_and_receive sym s w = (Raise e, emit PrintConnected w)
            /\ is_Exception e = true.
Proof.
  destruct s as [e | [| m inbox] closing]; simpl; try discriminate.
  unfold Ingestor.malformed, Ingestor.on_message.
  destruct (decode m) as [o | e]; [discriminate |].
  intros H. exists e. auto.
Qed.

(** C8.  The connector has no terminal state of its own.  Whatever the feed,
    it stops only on an exception outside [Exception] (a cancellation from
    outside).  Against a feed without such an exception it is, after any
    number of connection attempts, about to connect again, and it has slept
    exactly 5 once for every attempt that ended in an exception, however
    many there were. *)
Theorem connector_retries_forever (sym : string) (feed : list session) (w : world) :
  let out := stream_symbol sym feed w in
  (forall e, fst out = Stopped e -> is_Exception e = false)
  /\ (forallb survivable feed = true ->
      fst out = Reconnecting
      /\ backoffs (trace (snd out)) = backoffs (trace w) ++ repeat 5 (failures feed)).
Proof.
  revert w. induction feed as [| s feed IH]; intros w; simpl.
  - split; [discriminate |]. intros _. now rewrite app_nil_r.
  - pose proof (connect_and_receive_spec sym s w) as [Hb Hr]. simpl in Hb, Hr.
    unfold Ingestor.failures, Ingestor.survivable. simpl.
    destruct (connect_and_receive sym s w) as [[[] | e] w'] eqn:E; simpl in Hb, Hr.
    + destruct (session_error s) as [e' |]; [discriminate |].
      destruct (IH w') as [IH1 IH2]. split; [exact IH1 |].
      simpl. intros Hs. destruct (IH2 Hs) as [H1 H2]. split; [exact H1 |].
      rewrite H2, Hb. reflexivity.
    + destruct (session_error s) as [e' |]; [| discriminate].
      inversion Hr; subst e'. clear Hr.
      destruct (is_connection_lost e) eqn:El.
      * set (w2 := emit (Sleep 5) (emit PrintConnectionLost w')).
        destruct (IH w2) as [IH1 IH2]. split; [exact IH1 |].
        intros Hs. apply andb_true_iff in Hs. destruct Hs as [_ Hs].
        destruct (IH2 Hs) as [H1 H2]. split; [exact H1 |].
        rewrite H2. unfold w2. rewrite !backoffs_emit, Hb. simpl.
        rewrite app_nil_r, <- app_assoc. reflexivity.
      * destruct (is_Exception e) eqn:Ex.
        -- set (w2 := emit (Sleep 5) (emit PrintError w')).
           destruct (IH w2) as [IH1 IH2]. split; [exact IH1 |].
           intros Hs. destruct (IH2 Hs) as [H1 H2]. split; [exact H1 |].
           rewrite H2. unfold w2. rewrite !backoffs_emit, Hb. simpl.
           rewrite app_nil_r, <- app_assoc. reflexivity.
        -- simpl. split; [| discriminate].
           intros e0 H0. inversion H0; subst. exact Ex.
Qed.

Lemma malformed_sessions_spec (sym : string) (bad rest : list session) (w : world) :
  forallb starts_malformed bad = true ->
  exists w', stream_symbol sym (bad ++ rest) w = stream_symbol sym rest w'
             /\ ticks w' = ticks w
             /\ backoffs (trace w') = backoffs (trace w) ++ repeat 5 (length bad).
Proof.
  revert w. induction bad as [| s bad IH]; intros w Hb; simpl.
  - exists w. rewrite app_nil_r. auto.
  - simpl in Hb. apply andb_true_iff in Hb. destruct Hb as [Hs Hb].
    destruct (malformed_session_stores_nothing sym s w Hs) as (e & -> & He).
    rewrite He.
    destruct (is_connection_lost e).
    + destruct (IH (emit (Sleep 5) (emit PrintConnectionLost (emit PrintConnected w))) Hb)
        as (w' & H1 & H2 & H3).
      exists w'. split; [exact H1 |]. split; [exact H2 |].
      rewrite H3, !backoffs_emit. simpl. rewrite !app_nil_r, <- app_assoc. reflexivity.
    + destruct (IH (emit (Sleep 5) (emit PrintError (emit PrintConnected w))) Hb)
        as (w' & H1 & H2 & H3).
      exists w'. split; [exact H1 |]. split; [exact H2 |].
      rewrite H3, !backoffs_emit. simpl. rewrite !app_nil_r, <- app_assoc. reflexivity.
Qed.

(** A connection that delivers one valid trade message and ends normally. *)
Lemma trade_session_spec (sym : string) (data : json) (t : tick) (w : world) :
  decode (Doc data) = Ok (Some t) ->
  stream_symbol sym [Opened [Doc data] None] w
  = (Reconnecting, emit PrintTick (save_tick sym t (emit PrintConnected w))).
Proof.
  intros H. cbn [Ingestor.stream_symbol Ingestor.connect_and_receive Ingestor.receive].
  unfold Ingestor.on_message. rewrite H. reflexivity.
Qed.

(** C7 (as amended).  A malformed message is never fatal and stores nothing,
    but it is not passed over in place: it ends its connection, and the
    connector sleeps 5 and connects again.  So after any number of
    connections that each open with a malformed message (1000, say), a
    connection that delivers one valid trade message leaves exactly one more
    row in the table, the connector is still running, and it has slept 5
    once per malformed message. *)
Theorem malformed_messages_force_reconnects
  (sym : string) (bad : list session) (data : json) (t : tick) (w : world) :
  forallb starts_malformed bad = true ->
  decode (Doc data) = Ok (Some t) ->
  let out := stream_symbol sym (bad ++ [Opened [Doc data] None]) w in
  fst out = Reconnecting
  /\ ticks (snd out) = ticks w ++ [mkStored (tick_ts t) sym (tick_price t) (tick_size t)]
  /\ backoffs (trace (snd out)) = backoffs (trace w) ++ repeat 5 (length bad).
Proof.
  intros Hbad Hgood.
  destruct (malformed_sessions_spec sym bad [Opened [Doc data] None] w Hbad)
    as (w' & H1 & H2 & H3).
  cbv zeta. rewrite H1, (trade_session_spec sym data t w' Hgood). cbn [fst snd].
  split; [reflexivity |]. split.
  - unfold emit, save_tick. simpl. now rewrite H2.
  - rewrite backoffs_emit. change (backoffs [PrintTick]) with (@nil Z).
    rewrite app_nil_r.
    change (trace (save_tick sym t (emit PrintConnected w')))
      with (trace (emit PrintConnected w')).
    rewrite backoffs_emit, H3. change (backoffs [PrintConnected]) with (@nil Z).
    now rewrite app_nil_r.
Qed.

End ConnectorFacts.

(** ** The claims at sample inputs *)

Section Instances.

Import Pandas.

Lemma degraded_mode_reports_zero_witness :
  exists rows,
    Engine.compute_analytics Sample.no_text Sample.six_seconds 5
    = Ok (Engine.Analytics rows)
    /\ Forall (fun r => Engine.zscore r = 0%float /\ Engine.rolling_corr r = 0%float) rows.
Proof.
  apply (degraded_mode_reports_zero Sample.no_text Sample.six_seconds 5).
  - vm_compute. lia.
  - vm_compute. reflexivity.
Defined.

Lemma spread_is_price_difference_witness :
  Engine.compute_analytics Sample.no_text Sample.six_seconds 2
  = Ok Sample.six_seconds_window_two
  /\ Forall (fun r => Engine.spread r = (Engine.price_btc r - Engine.price_eth r)%float)
            (Engine.frame_rows Sample.six_seconds_window_two).
Proof.
  assert (H : Engine.compute_analytics Sample.no_text Sample.six_seconds 2
              = Ok Sample.six_seconds_window_two) by (vm_compute; reflexivity).
  split; [exact H |].
  exact (spread_is_price_difference Sample.no_text Sample.six_seconds 2 _ H).
Defined.

(** With [window = 1] the scenario of one tick per symbol returns no row. *)
Lemma one_bucket_window_one_has_no_rows :
  Engine.compute_analytics Sample.no_text Sample.one_tick_each 1
  = Ok (Engine.Analytics []).
Proof. vm_compute. reflexivity. Qed.

Lemma one_bucket_scenario_witness :
  Engine.compute_analytics Sample.no_text Sample.one_tick_each 2
  = Ok (Engine.Analytics
          [Engine.mkRow Sample.nine_oclock 100%float 50%float 50%float 0%float 0%float]).
Proof.
  apply (proj2 (one_bucket_scenario Sample.no_text Sample.nine_oclock
                  0.5%float 2%float 2)).
  lia.
Defined.

Lemma no_overlap_returns_empty_witness :
  Engine.symbol_ticks "ethusdt" Sample.btc_only = []
  /\ Engine.compute_analytics Sample.no_text Sample.btc_only 50 = Ok Engine.EmptyDataFrame.
Proof.
  split; [reflexivity |].
  apply (no_overlap_returns_empty Sample.no_text Sample.btc_only 50).
  right. left. reflexivity.
Defined.

Lemma rows_within_aligned_buckets_witness :
  (length (Engine.frame_rows Sample.six_seconds_window_two)
   <= length (nodup Z.eq_dec (index (Engine.aligned Sample.no_text Sample.six_seconds))))%nat
  /\ Forall (fun r => In (Engine.time r)
                         (index (Engine.aligned Sample.no_text Sample.six_seconds))
                      /\ isna (Engine.price_btc r) = false
                      /\ isna (Engine.price_eth r) = false)
            (Engine.frame_rows Sample.six_seconds_window_two).
Proof.
  apply (rows_within_aligned_buckets Sample.no_text Sample.six_seconds 2).
  vm_compute. reflexivity.
Defined.

Lemma resample_last_idempotent_witness :
  resample_last Engine.one_second Sample.gridded = Sample.gridded.
Proof.
  apply (proj1 (resample_last_idempotent Engine.one_second Sample.gridded eq_refl)).
  vm_compute. reflexivity.
Defined.

(** A thousand malformed messages and then a valid trade, all delivered on
    one connection: the first message ends the connection, the trade is never
    read, and the table stays empty. *)
Lemma unread_trade_is_lost :
  Ingestor.stream_symbol Sample.read_float Sample.render_time "btcusdt"
    [Ingestor.Opened (Sample.garbage ++ [Ingestor.Doc Sample.trade_doc]) None]
    Sample.fresh
  = (Ingestor.Reconnecting,
     Ingestor.mkWorld []
       [Ingestor.PrintConnected; Ingestor.PrintError; Ingestor.Sleep 5]).
Proof. vm_compute. reflexivity. Qed.

Lemma malformed_messages_force_reconnects_witness :
  let out :=
    Ingestor.stream_symbol Sample.read_float Sample.render_time "btcusdt"
      (Sample.one_per_connection ++ [Ingestor.Opened [Ingestor.Doc Sample.trade_doc] None])
      Sample.fresh in
  fst out = Ingestor.Reconnecting
  /\ Ingestor.ticks (snd out) = [Sample.trade_row]
  /\ Ingestor.backoffs (Ingestor.trace (snd out)) = repeat 5 1000.
Proof.
  apply (malformed_messages_force_reconnects Sample.read_float Sample.render_time
           "btcusdt" Sample.one_per_connection Sample.trade_doc
           (Ingestor.mkTick "2024-01-01T14:30:00+05:30" 100%float 0.5%float)
           Sample.fresh).
  - vm_compute. reflexivity.
  - vm_compute. reflexivity.
Defined.

Lemma connector_retries_forever_witness :
  let out :=
    Ingestor.stream_symbol Sample.read_float Sample.render_time "btcusdt"
      Sample.rough_feed Sample.fresh in
  fst out = Ingestor.Reconnecting
  /\ Ingestor.backoffs (Ingestor.trace (snd out)) = [5; 5; 5].
Proof.
  apply (proj2 (connector_retries_forever Sample.read_float Sample.render_time
                  "btcusdt" Sample.rough_feed Sample.fresh)).
  vm_compute. reflexivity.
Defined.

(** One aligned bucket and a window of ten: the live view reports the z-score
    as [0.0] and the rolling correlation as NaN. *)
Lemma live_view_corr_is_not_filled :
  LiveView.compute_analytics Sample.slope_two Sample.bars_btc Sample.bars_eth 10
  = Ok (Some (LiveView.mkOutput
                [(Sample.nine_oclock, (100%float, 50%float))]
                [0%float] [0%float] 2%float [nan])).
Proof. vm_compute. reflexivity. Qed.

Lemma live_view_before_window_full_witness :
  nth 0 [0%float] nan = 0%float /\ nth 0 [nan] 0%float = nan.
Proof.
  apply (live_view_before_window_full Sample.slope_two Sample.bars_btc Sample.bars_eth 10
           (LiveView.mkOutput [(Sample.nine_oclock, (100%float, 50%float))]
              [0%float] [0%float] 2%float [nan]) 0).
  - vm_compute. reflexivity.
  - simpl. lia.
  - vm_compute. reflexivity.
Defined.

(** The column assignment of line 27 works in place: applied to the caller's
    own object it would replace the text cells. *)
Example assignment_is_in_place :
  Engine.deref
    (Engine.setitem_ts 0%nat
       (map (Engine.to_datetime Sample.no_text) (Engine.ts_column Sample.text_frame))
       [Sample.text_frame]) 0%nat
  = [Engine.mkTick Engine.NaT "btcusdt" 100%float 0.5%float].
Proof. reflexivity. Qed.

End Instances.

(** ** More on the analytics engine *)

Section EngineErrors.

Import Pandas Engine.

Variable parse : string -> option Timestamp.

(** No cell of the returned frame is missing: besides the prices, the
    [spread], [zscore] and [rolling_corr] of every returned row are numbers,
    never NaN. *)
Theorem returned_rows_have_no_nan (df : DataFrame) (window : Z) (f : Frame) :
  compute_analytics parse df window = Ok f ->
  Forall (fun r => isna (spread r) = false /\ isna (zscore r) = false
                   /\ isna (rolling_corr r) = false)
         (frame_rows f).
Proof.
  intros H. apply Forall_forall. intros r Hr.
  destruct (returned_row parse df window f r H Hr) as (_ & _ & Hc).
  unfold complete, notna in Hc.
  repeat (apply andb_true_iff in Hc; destruct Hc as [Hc ?]).
  repeat match goal with
         | Hn : negb _ = true |- _ => apply negb_true_iff in Hn
         end.
  auto.
Qed.

(** [compute_analytics] raises in one situation only: a negative window on a
    frame that has an aligned bucket, and then it raises the [ValueError] of
    [rolling].  Without an aligned bucket a negative window goes unnoticed. *)
Theorem raises_only_on_negative_window (df : DataFrame) (window : Z) (e : exn) :
  compute_analytics parse df window = Raise e
  <-> (e = ValueError /\ window < 0 /\ (1 <= length (aligned parse df))%nat).
Proof.
  rewrite compute_analytics_unfold.
  destruct (aligned parse df) as [| m0 m] eqn:Em.
  - simpl. split; [discriminate | simpl; intros (_ & _ & H); lia].
  - cbv beta iota delta [empty]. unfold analyse, score_columns, rolling.
    rewrite Z.geb_leb.
    destruct (window <? 0) eqn:Ew.
    + apply Z.ltb_lt in Ew.
      replace (window <=? Z.of_nat (length (m0 :: m))) with true
        by (symmetry; apply Z.leb_le; lia).
      simpl. split.
      * intros H. inversion H. repeat split; auto; lia.
      * intros (-> & _ & _). reflexivity.
    + apply Z.ltb_ge in Ew.
      destruct (window <=? Z.of_nat (length (m0 :: m))); simpl;
        (split; [discriminate | intros (_ & H & _); lia]).
Qed.

Lemma converted_frame (df : DataFrame) :
  set_ts_column df (map (to_datetime parse) (ts_column df))
  = map (fun r => mkTick (to_datetime parse (ts r)) (symbol r) (price r) (size r)) df.
Proof.
  unfold set_ts_column, ts_column. induction df as [| r df IH]; simpl; auto.
  now rewrite IH.
Qed.


End EngineErrors.

Section EngineOrder.

Import Pandas Engine.

Variable parse : string -> option Timestamp.

Lemma insert_by_sorted {A} (key : A -> Z) (x : A) (l : list A) :
  StronglySorted (fun a b => key a <= key b) l ->
  StronglySorted (fun a b => key a <= key b) (insert_by key x l).
Proof.
  induction 1 as [| y l Hs IH Hy]; simpl.
  - repeat constructor.
  - destruct (key x <=? key y) eqn:E.
    + apply Z.leb_le in E. constructor; [constructor; auto |].
      constructor; auto. eapply Forall_impl; [| exact Hy]. simpl. intros; lia.
    + apply Z.leb_gt in E. constructor; auto.
      rewrite Forall_forall in *. intros z Hz.
      apply (Permutation_in _ (insert_by_perm key x l)) in Hz.
      destruct Hz as [<- | Hz]; [lia | auto].
Qed.

Lemma sort_by_sorted {A} (key : A -> Z) (l : list A) :
  StronglySorted (fun a b => key a <= key b) (sort_by key l).
Proof.
  induction l as [| x l IH]; simpl; [constructor |]. now apply insert_by_sorted.
Qed.

Lemma sorted_NoDup_strict (l : list Z) :
  StronglySorted (fun a b => a <= b) l -> NoDup l -> StronglySorted Z.lt l.
Proof.
  induction 1 as [| x l Hs IH Hx]; intros Hn; constructor; inversion Hn; subst; auto.
  rewrite Forall_forall in *. intros y Hy.
  specialize (Hx y Hy). assert (x <> y) by (intros ->; contradiction). lia.
Qed.

Lemma index_union_sorted (ia ib : list Timestamp) :
  StronglySorted Z.lt (index_union ia ib).
Proof.
  apply sorted_NoDup_strict; [| apply index_union_NoDup].
  unfold index_union. apply (sort_by_sorted (fun t => t)).
Qed.

Lemma keyed_filter_sorted {V} (g : Timestamp -> V) (p : Timestamp * V -> bool) l :
  StronglySorted Z.lt l ->
  StronglySorted Z.lt (index (filter p (map (fun t => (t, g t)) l))).
Proof.
  unfold index. induction 1 as [| t l Hs IH Ht]; simpl; [constructor |].
  destruct (p (t, g t)); simpl; auto. constructor; auto.
  rewrite Forall_forall in *. intros u Hu.
  apply in_map_iff in Hu. destruct Hu as [[u' v] [<- Hu]].
  apply filter_In in Hu. destruct Hu as [Hu _].
  apply in_map_iff in Hu. destruct Hu as [w [Hw Hin]]. inversion Hw; subst. simpl. auto.
Qed.

Lemma aligned_index_sorted (df : DataFrame) :
  StronglySorted Z.lt (index (aligned parse df)).
Proof.
  unfold aligned, align, concat_axis1.
  apply keyed_filter_sorted with (g := fun t => (lookup t _, lookup t _)).
  apply index_union_sorted.
Qed.

Lemma attach_times_sorted (m : Series (float * float)) (ss zs cs : list float) :
  StronglySorted Z.lt (index m) ->
  StronglySorted Z.lt (map time (filter complete (attach m ss zs cs))).
Proof.
  revert ss zs cs. unfold index.
  induction m as [| [t [b e]] m IH]; intros ss zs cs Hs; simpl; [constructor |].
  destruct ss as [| s ss], zs as [| z zs], cs as [| c cs]; simpl; try constructor.
  inversion Hs as [| ? ? Hs' Ht]; subst.
  destruct (complete (mkRow t b e s z c)); simpl; [| now apply IH].
  constructor; [now apply IH |].
  rewrite Forall_forall in *. intros u Hu.
  apply in_map_iff in Hu. destruct Hu as [r [<- Hr]].
  apply filter_In in Hr. destruct Hr as [Hr _].
  apply attach_in in Hr. destruct Hr as [Hr _].
  apply Ht. apply in_map_iff. exists (time r, (price_btc r, price_eth r)). auto.
Qed.

Lemma index_resample {X Y} (f : Z) (agg : list X -> Y) (s : Series X) :
  index (resample f agg s) = bins f (sort_index s).
Proof. unfold resample, index. rewrite map_map. simpl. apply map_id. Qed.

Lemma bins_on_the_grid {X} (f : Z) (s : Series X) (b : Timestamp) :
  f <> 0 -> In b (bins f s) -> b mod f = 0.
Proof.
  intros Hf. unfold bins. destruct s as [| x s]; [intros [] |].
  intros Hb. apply in_map_iff in Hb. destruct Hb as [k [<- _]].
  unfold bucket. rewrite Z.mod_add by exact Hf. now apply Z.mod_mul.
Qed.

Lemma aligned_on_the_second (df : DataFrame) (t : Timestamp) :
  In t (index (aligned parse df)) -> t mod one_second = 0.
Proof.
  unfold aligned, align, concat_axis1, index at 1. intros H.
  apply in_map_iff in H. destruct H as [[t' v] [<- H]].
  apply filter_In in H. destruct H as [H _].
  apply in_map_iff in H. destruct H as [u [Hu H]]. inversion Hu; subst. simpl.
  unfold index_union in H. apply sort_by_in in H. apply nodup_In in H.
  unfold resample_last in H. rewrite !index_resample in H.
  apply in_app_or in H.
  destruct H as [H | H]; eapply bins_on_the_grid; try exact H; discriminate.
Qed.

(** The returned rows are in strictly increasing time order, one per second
    at most, and every [time] is the start of a whole second. *)
Theorem rows_ordered_on_the_second (df : DataFrame) (window : Z) (f : Frame) :
  compute_analytics parse df window = Ok f ->
  StronglySorted Z.lt (map time (frame_rows f))
  /\ Forall (fun r => time r mod one_second = 0) (frame_rows f).
Proof.
  intros H. split.
  - revert H. rewrite compute_analytics_unfold.
    destruct (empty (aligned parse df)).
    + intros H; inversion H; subst. constructor.
    + intros H. apply analyse_rows in H. destruct H as (zs & cs & _ & ->).
      cbn [frame_rows]. apply attach_times_sorted, aligned_index_sorted.
  - apply Forall_forall. intros r Hr.
    destruct (returned_row parse df window f r H Hr) as (Hin & _ & _).
    apply aligned_on_the_second with (df := df).
    unfold index. apply in_map_iff. eexists; split; [| exact Hin]. reflexivity.
Qed.

End EngineOrder.

Section EngineWindows.

Import Pandas Engine.

Variable parse : string -> option Timestamp.

Lemma zip_with_in {X Y Z'} (f : X -> Y -> Z') (xs : list X) (ys : list Y) (z : Z') :
  In z (zip_with f xs ys) -> exists x y, In x xs /\ In y ys /\ z = f x y.
Proof.
  revert ys. induction xs as [| x xs IH]; intros [| y ys]; simpl; try tauto.
  intros [<- | H].
  - exists x, y. auto.
  - apply IH in H. destruct H as (a & b & Ha & Hb & ->). exists a, b. auto.
Qed.

Lemma window_at_within {X} (w : nat) (xs : list X) (i : nat) :
  (length (window_at w xs i) <= w)%nat.
Proof. unfold window_at. rewrite length_skipn, length_firstn. lia. Qed.

(** No more entries than [ddof]: no variance. *)
Lemma calc_var_few (minp ddof : nat) (win : list float) :
  (length win <= ddof)%nat -> calc_var minp ddof win = nan.
Proof.
  intros H. unfold calc_var.
  pose proof (observations_length win) as Ho.
  destruct (ddof <? length (observations win))%nat eqn:E.
  - apply Nat.ltb_lt in E. lia.
  - now rewrite andb_false_r.
Qed.

(** A window of one bucket has no sample standard deviation. *)
Lemma rolling_std_one (xs : list float) :
  Forall (fun x => x = nan) (rolling_std 1 xs).
Proof.
  apply Forall_forall. intros x Hx. unfold rolling_std, roll_var, roll in Hx.
  apply in_map_iff in Hx. destruct Hx as [v [<- Hv]].
  apply in_map_iff in Hv. destruct Hv as [i [<- _]].
  rewrite calc_var_few; [reflexivity | apply window_at_within].
Qed.

Lemma incomplete_zscore (r : Row) : zscore r = nan -> complete r = false.
Proof.
  intros H. unfold complete, notna. rewrite H. simpl.
  now rewrite andb_false_r.
Qed.

Lemma analyse_window_of_one (m : Series (float * float)) (f : Frame) :
  (1 <= length m)%nat -> analyse m 1 = Ok f -> frame_rows f = [].
Proof.
  intros Hm H. apply analyse_rows in H. destruct H as (zs & cs & Hs & ->).
  cbn [frame_rows]. apply filter_none. intros r Hr. apply incomplete_zscore.
  apply attach_in in Hr. destruct Hr as (_ & _ & Hz & _).
  unfold score_columns in Hs.
  replace (Z.of_nat (length m) >=? 1) with true in Hs
    by (symmetry; rewrite Z.geb_leb; apply Z.leb_le; lia).
  change (rolling 1) with (@Ok nat 1%nat) in Hs. cbn [Py.bind] in Hs.
  inversion Hs as [[Hzs Hcs]]. clear Hs Hcs. subst zs.
  apply zip_with_in in Hz. destruct Hz as (a & b & _ & Hb & ->).
  pose proof (rolling_std_one (spread_column m)) as Hall.
  rewrite Forall_forall in Hall. rewrite (Hall b Hb). apply div_nan_r.
Qed.

(** With a window of one bucket nothing is ever returned: the standard
    deviation of a single sample is NaN, so every row is dropped. *)
Theorem window_of_one_returns_no_rows (df : DataFrame) (f : Frame) :
  compute_analytics parse df 1 = Ok f -> frame_rows f = [].
Proof.
  rewrite compute_analytics_unfold.
  generalize (aligned parse df). intros m.
  destruct m as [| m0 m].
  - intros H; inversion H; reflexivity.
  - cbv beta iota delta [empty]. apply analyse_window_of_one.
    cbn [length]. lia.
Qed.

End EngineWindows.

Section EngineWarmUp.

Import Pandas Engine.

Variable parse : string -> option Timestamp.

(** The z-score before the fill, at a bucket that comes before the [w]-th:
    the rolling mean is NaN there, and so is the quotient. *)
Lemma raw_zscore_not_full (w : nat) (xs : list float) (i : nat) (d : float) :
  (i < length xs)%nat -> (S i < w)%nat ->
  nth i (zip_with PrimFloat.div
           (zip_with PrimFloat.sub xs (rolling_mean w xs)) (rolling_std w xs)) d
  = nan.
Proof.
  intros Hi Hw.
  rewrite (zip_with_nth _ _ _ i 0%float 0%float).
  2: { rewrite zip_with_length, rolling_mean_length. lia. }
  2: { rewrite rolling_std_length. lia. }
  rewrite (zip_with_nth _ _ _ i 0%float 0%float).
  2: lia.
  2: { rewrite rolling_mean_length. lia. }
  rewrite rolling_mean_not_full by lia.
  now rewrite sub_nan_r, div_nan_l.
Qed.

Lemma first_cells_nan (k : nat) (l : list float) :
  (forall i, (i < k)%nat -> (i < length l)%nat -> nth i l 0%float = nan) ->
  Forall (fun x => x = nan) (firstn k l).
Proof.
  intros H. apply Forall_forall. intros x Hx.
  destruct (In_nth _ _ 0%float Hx) as (i & Hi & <-).
  rewrite length_firstn in Hi.
  rewrite nth_firstn. replace (i <? k)%nat with true by (symmetry; apply Nat.ltb_lt; lia).
  apply H; lia.
Qed.

Lemma attach_no_spread (m : Series (float * float)) (zs cs : list float) :
  attach m [] zs cs = [].
Proof. destruct m as [| [t [b e]] m]; reflexivity. Qed.

Lemma attach_no_zscore (m : Series (float * float)) (ss cs : list float) :
  attach m ss [] cs = [].
Proof. destruct m as [| [t [b e]] m]; [| destruct ss]; reflexivity. Qed.

Lemma attach_no_corr (m : Series (float * float)) (ss zs : list float) :
  attach m ss zs [] = [].
Proof. destruct m as [| [t [b e]] m]; [| destruct ss; [| destruct zs]]; reflexivity. Qed.

(** Attaching the columns row by row can be cut at any position. *)
Lemma attach_split (k : nat) (m : Series (float * float)) (ss zs cs : list float) :
  attach m ss zs cs
  = attach (firstn k m) (firstn k ss) (firstn k zs) (firstn k cs)
    ++ attach (skipn k m) (skipn k ss) (skipn k zs) (skipn k cs).
Proof.
  revert m ss zs cs. induction k as [| k IH]; intros m ss zs cs; [reflexivity |].
  destruct m as [| [t [b e]] m]; [reflexivity |].
  destruct ss as [| s ss].
  { simpl firstn. simpl skipn. now rewrite !attach_no_spread. }
  destruct zs as [| z zs].
  { simpl firstn. simpl skipn. now rewrite !attach_no_zscore. }
  destruct cs as [| c cs].
  { simpl firstn. simpl skipn. now rewrite !attach_no_corr. }
  simpl. f_equal. apply IH.
Qed.

Lemma analyse_warm_up (m : Series (float * float)) (window : Z) (f : Frame) :
  analyse m window = Ok f ->
  window <= Z.of_nat (length m) ->
  let k := (Z.to_nat window - 1)%nat in
  Forall (fun r => In (time r) (index (skipn k m))) (frame_rows f)
  /\ (length (frame_rows f) <= length m - k)%nat.
Proof.
  intros H Hw k.
  apply analyse_rows in H. destruct H as (zs & cs & Hs & ->).
  unfold score_columns, rolling in Hs.
  replace (Z.of_nat (length m) >=? window) with true in Hs
    by (symmetry; rewrite Z.geb_leb; now apply Z.leb_le).
  destruct (window <? 0); [discriminate |].
  cbn [Py.bind] in Hs. inversion Hs; subst zs cs. clear Hs.
  set (sp := spread_column m).
  set (zs := zip_with PrimFloat.div _ (rolling_std (Z.to_nat window) sp)).
  assert (Hsp : length sp = length m) by (unfold sp, spread_column; apply length_map).
  assert (Hnan : Forall (fun x => x = nan) (firstn k zs)).
  { apply first_cells_nan. intros i Hi Hl. unfold zs in *.
    apply raw_zscore_not_full.
    - rewrite !zip_with_length, rolling_mean_length, rolling_std_length in Hl. lia.
    - unfold k in Hi. lia. }
  cbn [frame_rows].
  rewrite (attach_split k m sp zs), filter_app.
  rewrite (filter_none complete (attach (firstn k m) _ _ _)).
  2: { intros r Hr. apply incomplete_zscore. apply attach_in in Hr.
       destruct Hr as (_ & _ & Hr & _). rewrite Forall_forall in Hnan. now apply Hnan. }
  cbn [app]. split.
  - apply Forall_forall. intros r Hr. apply filter_In in Hr. destruct Hr as [Hr _].
    apply attach_in in Hr. destruct Hr as [Hr _].
    unfold index. apply in_map_iff. eexists; split; [| exact Hr]. reflexivity.
  - etransitivity; [apply filter_length_le |].
    etransitivity; [apply attach_length |]. rewrite length_skipn. lia.
Qed.

(** In the rolling branch the first [window - 1] aligned buckets are
    suppressed: every returned row sits on an aligned bucket from the
    [window]-th on, so at most [n - (window - 1)] of [n] aligned buckets are
    returned. *)
Theorem warm_up_buckets_suppressed (df : DataFrame) (window : Z) (f : Frame) :
  compute_analytics parse df window = Ok f ->
  window <= Z.of_nat (length (aligned parse df)) ->
  let k := (Z.to_nat window - 1)%nat in
  Forall (fun r => In (time r) (index (skipn k (aligned parse df)))) (frame_rows f)
  /\ (length (frame_rows f) <= length (aligned parse df) - k)%nat.
Proof.
  rewrite compute_analytics_unfold.
  generalize (aligned parse df). intros m.
  destruct (empty m).
  - intros H _ k. inversion H; subst. cbn [frame_rows length]. split; [constructor | lia].
  - apply analyse_warm_up.
Qed.

End EngineWarmUp.

Section EngineSymbols.

Import Pandas Engine.

Variable parse : string -> option Timestamp.

Lemma filter_map_comm {X Y} (p : Y -> bool) (q : X -> bool) (G : X -> Y) (l : list X) :
  (forall x, p (G x) = q x) -> filter p (map G l) = map G (filter q l).
Proof.
  intros H. induction l as [| x l IH]; simpl; auto.
  rewrite H. destruct (q x); simpl; now rewrite IH.
Qed.

Lemma insert_by_map {X Y} (key : Y -> Z) (key' : X -> Z) (G : X -> Y) (x : X) (l : list X) :
  (forall a, key (G a) = key' a) ->
  insert_by key (G x) (map G l) = map G (insert_by key' x l).
Proof.
  intros H. induction l as [| y l IH]; simpl; auto.
  rewrite !H. destruct (key' x <=? key' y); simpl; auto. now rewrite IH.
Qed.

Lemma sort_by_map {X Y} (key : Y -> Z) (key' : X -> Z) (G : X -> Y) (l : list X) :
  (forall a, key (G a) = key' a) ->
  sort_by key (map G l) = map G (sort_by key' l).
Proof.
  intros H. induction l as [| x l IH]; simpl; auto.
  rewrite IH. now apply insert_by_map.
Qed.

Lemma set_index_ts_map (g : string -> string) (df : DataFrame) :
  set_index_ts (map (rename_symbol g) df)
  = map (fun x => (fst x, rename_symbol g (snd x))) (set_index_ts df).
Proof.
  unfold set_index_ts. induction df as [| r df IH]; simpl; auto.
  rewrite IH. destruct (ts r); reflexivity.
Qed.

Lemma aligned_rename (g : string -> string) (df : DataFrame) :
  (forall s, str_lower (g s) = str_lower s) ->
  aligned parse (map (rename_symbol g) df) = aligned parse df.
Proof.
  intros Hg. unfold aligned, clean. rewrite !converted_frame.
  set (conv := fun r => mkTick (to_datetime parse (ts r)) (symbol r) (price r) (size r)).
  assert (E1 : map conv (map (rename_symbol g) df) = map (rename_symbol g) (map conv df)).
  { rewrite !map_map. apply map_ext. reflexivity. }
  rewrite E1. unfold dropna_ts_price.
  rewrite (filter_map_comm _ (fun r => negb (ts_isna (ts r)) && notna (price r)))
    by reflexivity.
  rewrite set_index_ts_map. unfold sort_index.
  rewrite (sort_by_map fst fst) by reflexivity.
  set (c := sort_by fst _).
  set (G := fun x : Z * Tick => (fst x, rename_symbol g (snd x))).
  assert (Eb : forall name, by_symbol name (map G c) = map G (by_symbol name c)).
  { intros name. unfold by_symbol. apply filter_map_comm.
    intros x. simpl. now rewrite Hg. }
  assert (Ep : forall l, price_column (map G l) = price_column l).
  { intros l. unfold price_column. rewrite map_map. apply map_ext. reflexivity. }
  unfold align. now rewrite !Eb, !Ep.
Qed.

(** Symbols are matched whatever their letter case: respelling the symbols
    of a frame in a way that leaves their lower-case form alone does not
    change the result. *)
Theorem symbols_match_without_case (g : string -> string) (df : DataFrame) (window : Z) :
  (forall s, str_lower (g s) = str_lower s) ->
  compute_analytics parse (map (rename_symbol g) df) window
  = compute_analytics parse df window.
Proof.
  intros Hg. rewrite !compute_analytics_unfold. now rewrite aligned_rename.
Qed.

End EngineSymbols.

Lemma lower_upper_ascii (c : ascii) :
  Engine.lower_ascii (LiveView.upper_ascii c) = Engine.lower_ascii c.
Proof.
  destruct c as [[] [] [] [] [] [] [] []]; vm_compute; reflexivity.
Qed.

Lemma str_lower_upper (s : string) :
  Engine.str_lower (LiveView.str_upper s) = Engine.str_lower s.
Proof.
  induction s as [| c s IH]; simpl; [reflexivity |].
  now rewrite lower_upper_ascii, IH.
Qed.

(** ** More on the live view *)

Section LiveViewShape.

Import Pandas LiveView.

Variable ols : Series (float * float) -> result float.

Lemma fillna_no_nan (v : float) (xs : list float) :
  isna v = false -> Forall (fun x => isna x = false) (fillna v xs).
Proof.
  intros Hv. apply Forall_forall. intros x Hx. unfold fillna in Hx.
  apply in_map_iff in Hx. destruct Hx as [y [<- _]].
  destruct (isna y) eqn:E; auto.
Qed.

(** What the live view hands to the charts and the CSV: a non-empty pair
    frame in strictly increasing time order with both prices present in
    every row, and three series with one entry per row of it.  The spread is
    [p1 - hedge_ratio * p2] row by row, and no z-score is NaN. *)
Theorem live_view_output_shape
  (df1 df2 : Resampled) (window : Z) (out : Output) :
  compute_analytics ols df1 df2 window = Ok (Some out) ->
  (1 <= length (df_pair out))%nat
  /\ StronglySorted Z.lt (index (df_pair out))
  /\ Forall (fun r => isna (fst (snd r)) = false /\ isna (snd (snd r)) = false)
            (df_pair out)
  /\ spread out
     = map (fun r => (fst (snd r) - hedge_ratio out * snd (snd r))%float) (df_pair out)
  /\ length (zscore out) = length (df_pair out)
  /\ length (rolling_corr out) = length (df_pair out)
  /\ Forall (fun z => isna z = false) (zscore out).
Proof.
  unfold compute_analytics.
  destruct (price_column df1) as [p1 | e1]; cbn [Py.bind]; [| discriminate].
  destruct (price_column df2) as [p2 | e2]; cbn [Py.bind]; [| discriminate].
  pose proof (keyed_filter_sorted (fun t => (lookup t p1, lookup t p2))
                Engine.both_present _ (index_union_sorted (index p1) (index p2)))
    as Hsorted.
  fold (concat_axis1 p1 p2) in Hsorted.
  set (df := filter Engine.both_present (concat_axis1 p1 p2)) in *.
  assert (Hpresent : Forall (fun r => Engine.both_present r = true) df).
  { apply Forall_forall. intros r Hr. unfold df in Hr. apply filter_In in Hr. tauto. }
  destruct df as [| r0 df'] eqn:Edf; [discriminate |]. rewrite <- Edf in *.
  cbv beta iota delta [Engine.empty]. rewrite Edf at 1. cbv iota.
  destruct (ols df) as [hr | e]; cbn [Py.bind]; [| discriminate].
  unfold rolling. destruct (window <? 0); cbn [Py.bind]; [discriminate |].
  intros H. inversion H; subst out; clear H.
  cbn [df_pair spread zscore hedge_ratio rolling_corr].
  set (sp := map _ df).
  assert (Hsp : length sp = length df) by (unfold sp; apply length_map).
  repeat split.
  - rewrite Edf. cbn [length]. lia.
  - exact Hsorted.
  - eapply Forall_impl; [| exact Hpresent]. intros r Hr.
    unfold Engine.both_present, notna in Hr.
    apply andb_true_iff in Hr. destruct Hr as [H1 H2].
    apply negb_true_iff in H1, H2. auto.
  - unfold fillna.
    rewrite length_map, !zip_with_length, rolling_mean_length, rolling_std_length, Hsp.
    lia.
  - rewrite rolling_corr_length; unfold values; rewrite !length_map; reflexivity.
  - apply fillna_no_nan. reflexivity.
Qed.

End LiveViewShape.

Section LiveViewBars.

Import Pandas LiveView.

Lemma freq_positive (tf : timeframe) : 0 < freq tf.
Proof. destruct tf; reflexivity. Qed.

(** Rounding leaves a grid point where it is. *)
Lemma round_to_grid_point (f t : Z) : 0 < f -> t mod f = 0 -> round_to f t = t.
Proof.
  intros Hf Hm. unfold round_to. rewrite Hm.
  replace (2 * 0 <? f) with true by (symmetry; apply Z.ltb_lt; lia).
  pose proof (Z.div_mod t f ltac:(lia)) as E. lia.
Qed.

Lemma affine_seq_sorted (lo f : Z) (a n : nat) :
  0 < f -> StronglySorted Z.lt (map (fun k => lo + Z.of_nat k * f) (seq a n)).
Proof.
  intros Hf. revert a. induction n as [| n IH]; intros a; simpl; constructor; auto.
  apply Forall_forall. intros x Hx. apply in_map_iff in Hx.
  destruct Hx as [k [<- Hk]]. apply in_seq in Hk. nia.
Qed.

Lemma bins_sorted {X} (f : Z) (s : Series X) : 0 < f -> StronglySorted Z.lt (bins f s).
Proof.
  intros Hf. unfold bins. destruct s; [constructor |]. now apply affine_seq_sorted.
Qed.

(** The bars of a symbol: every label is a grid point of the timeframe, the
    labels are in strictly increasing order, and no bar has a missing price
    or size. *)
Theorem bars_lie_on_the_grid
  (df : Engine.DataFrame) (sym : string) (tf : timeframe) (rows : Series (float * float)) :
  resample_data df sym tf = Bars rows ->
  StronglySorted Z.lt (index rows)
  /\ Forall (fun r => fst r mod freq tf = 0
                      /\ isna (fst (snd r)) = false /\ isna (snd (snd r)) = false)
            rows.
Proof.
  unfold resample_data.
  destruct (Engine.empty _); [discriminate |].
  set (indexed := map _ (Engine.set_index_ts _)).
  set (keep := fun r : Z * (float * float) => notna (fst (snd r)) && notna (snd (snd r))).
  pose proof (freq_positive tf) as Hf.
  intros H. injection H as <-.
  unfold resample.
  set (kept := filter keep (map _ (bins (freq tf) (sort_index indexed)))).
  assert (Hgrid : forall r, In r kept -> fst r mod freq tf = 0).
  { intros r Hr. unfold kept in Hr. apply filter_In in Hr. destruct Hr as [Hr _].
    apply in_map_iff in Hr. destruct Hr as [b [<- Hb]]. cbn [fst].
    eapply bins_on_the_grid; [| exact Hb]. lia. }
  assert (Hid : map (fun r => (round_to (freq tf) (fst r), snd r)) kept = kept).
  { rewrite <- (map_id kept) at 2. apply map_ext_in. intros [b v] Hr.
    cbn [fst snd]. rewrite round_to_grid_point;
      [reflexivity | exact Hf | exact (Hgrid _ Hr)]. }
  rewrite Hid. split.
  - unfold kept.
    apply keyed_filter_sorted
      with (g := fun b => agg_last_sum (members (freq tf) b (sort_index indexed))).
    apply bins_sorted, Hf.
  - apply Forall_forall. intros r Hr. split; [now apply Hgrid |].
    unfold kept in Hr. apply filter_In in Hr. destruct Hr as [_ Hk].
    unfold keep, notna in Hk. apply andb_true_iff in Hk. destruct Hk as [H1 H2].
    apply negb_true_iff in H1, H2. auto.
Qed.

End LiveViewBars.

Section LiveViewAlerts.

Import Pandas LiveView.

Variable ols : Series (float * float) -> result float.
Variable now : string.
Variable round3 : float -> float.

Lemma last_constant (d : float) (l : list float) :
  Forall (fun x => x = d) l -> last l d = d.
Proof.
  induction 1 as [| x l Hx Hl IH]; [reflexivity |].
  simpl. destruct l; auto.
Qed.

(** While fewer aligned buckets exist than the window holds, every z-score
    of the live view is [0.0]. *)
Lemma live_zscore_all_zero (df1 df2 : Resampled) (window : Z) (out : Output) :
  compute_analytics ols df1 df2 window = Ok (Some out) ->
  Z.of_nat (length (df_pair out)) < window ->
  Forall (fun z => z = 0%float) (zscore out).
Proof.
  unfold compute_analytics.
  destruct (price_column df1) as [p1 | e1]; cbn [Py.bind]; [| discriminate].
  destruct (price_column df2) as [p2 | e2]; cbn [Py.bind]; [| discriminate].
  set (df := filter Engine.both_present (concat_axis1 p1 p2)).
  destruct (Engine.empty df); [discriminate |].
  destruct (ols df) as [hr | e]; cbn [Py.bind]; [| discriminate].
  unfold rolling. destruct (window <? 0); cbn [Py.bind]; [discriminate |].
  intros H. inversion H; subst out; clear H. cbn [df_pair zscore].
  intros Hw.
  set (sp := map _ df).
  assert (Hsp : length sp = length df) by (unfold sp; apply length_map).
  set (raw := zip_with PrimFloat.div _ _).
  assert (Hraw : Forall (fun x => x = nan) raw).
  { rewrite <- (firstn_all raw). apply first_cells_nan. intros i _ Hi.
    unfold raw in *. apply raw_zscore_not_full.
    - rewrite !zip_with_length, rolling_mean_length, rolling_std_length in Hi. lia.
    - rewrite !zip_with_length, rolling_mean_length, rolling_std_length in Hi. lia. }
  apply Forall_forall. intros z Hz. unfold fillna in Hz.
  apply in_map_iff in Hz. destruct Hz as [y [<- Hy]].
  rewrite Forall_forall in Hraw. rewrite (Hraw y Hy). reflexivity.
Qed.

(** No alert while the window is not full: as long as there are fewer
    aligned buckets than the window holds, a refresh leaves the alert history
    as it is, for every threshold that is not negative. *)
Theorem no_alert_before_window_full
  (df1 df2 : Resampled) (window : Z) (out : Output)
  (symbol_1 symbol_2 : string) (z_alert : float) (alerts : list Alert) :
  compute_analytics ols df1 df2 window = Ok (Some out) ->
  Z.of_nat (length (df_pair out)) < window ->
  PrimFloat.ltb z_alert 0%float = false ->
  record_alert now round3 symbol_1 symbol_2 z_alert (zscore out) alerts = alerts.
Proof.
  intros H Hw Hz. unfold record_alert.
  rewrite (last_constant 0%float (zscore out)).
  2: exact (live_zscore_all_zero df1 df2 window out H Hw).
  change (PrimFloat.abs 0%float) with 0%float. rewrite Hz.
  now rewrite andb_false_r.
Qed.

End LiveViewAlerts.

(** ** More on the stream connector *)

Section ConnectorTable.

Import Ingestor.

Variable float_of_text : string -> option float.
Variable fromtimestamp_isoformat : float -> result string.

Local Abbreviation decode := (decode float_of_text fromtimestamp_isoformat).
Local Abbreviation normalize := (normalize float_of_text fromtimestamp_isoformat).
Local Abbreviation py_float := (py_float float_of_text).
Local Abbreviation on_message := (on_message float_of_text fromtimestamp_isoformat).
Local Abbreviation receive := (receive float_of_text fromtimestamp_isoformat).
Local Abbreviation connect_and_receive := (connect_and_receive float_of_text fromtimestamp_isoformat).
Local Abbreviation stream_symbol := (stream_symbol float_of_text fromtimestamp_isoformat).
Local Abbreviation session_error := (session_error float_of_text fromtimestamp_isoformat).
Local Abbreviation first_error := (first_error float_of_text fromtimestamp_isoformat).
Local Abbreviation survivable := (survivable float_of_text fromtimestamp_isoformat).
Local Abbreviation read_ticks := (read_ticks float_of_text fromtimestamp_isoformat).
Local Abbreviation session_ticks := (session_ticks float_of_text fromtimestamp_isoformat).

Lemma receive_ticks (sym : string) (inbox : list frame) (closing : option exn) (w : world) :
  ticks (snd (receive sym inbox closing w))
  = ticks w ++ map (to_row sym) (read_ticks inbox).
Proof.
  revert w. induction inbox as [| m inbox IH]; intros w.
  - cbn. now rewrite app_nil_r.
  - cbn [Ingestor.receive Ingestor.read_ticks]. unfold Ingestor.on_message.
    destruct (decode m) as [[t |] | e].
    + rewrite IH. cbn [ticks emit save_tick map]. rewrite <- app_assoc. reflexivity.
    + apply IH.
    + cbn. now rewrite app_nil_r.
Qed.

Lemma connect_and_receive_ticks (sym : string) (s : session) (w : world) :
  ticks (snd (connect_and_receive sym s w))
  = ticks w ++ map (to_row sym) (session_ticks s).
Proof.
  destruct s as [e | inbox closing].
  - cbn. now rewrite app_nil_r.
  - cbn [Ingestor.connect_and_receive Ingestor.session_ticks]. now rewrite receive_ticks.
Qed.

(** The table is append-only and holds exactly the trades that were read.
    After any feed the table is the old table followed by the rows of the
    trades read on the connection attempts made, in the order they were read
    and under the connector's own symbol; when nothing stops the connector
    from outside, these are the attempts of the whole feed. *)
Theorem table_holds_the_trades_read (sym : string) (feed : list session) (w : world) :
  let out := stream_symbol sym feed w in
  (exists n, ticks (snd out)
             = ticks w ++ map (to_row sym) (flat_map session_ticks (firstn n feed)))
  /\ (forallb survivable feed = true ->
      ticks (snd out) = ticks w ++ map (to_row sym) (flat_map session_ticks feed)).
Proof.
  revert w. induction feed as [| s feed IH]; intros w.
  - cbn. split; [exists 0%nat |]; cbn; now rewrite app_nil_r.
  - cbn [Ingestor.stream_symbol].
    pose proof (connect_and_receive_ticks sym s w) as Ht.
    pose proof (connect_and_receive_spec float_of_text fromtimestamp_isoformat sym s w)
      as [_ Hr].
    cbv zeta in Hr.
    destruct (connect_and_receive sym s w) as [[[] | e] w'] eqn:E;
      cbn [fst snd] in Ht, Hr.
    + destruct (IH w') as [[n Hn] Hall]. cbv zeta in Hn, Hall. cbv zeta. split.
      * exists (S n). rewrite Hn, Ht. cbn [firstn flat_map].
        now rewrite map_app, app_assoc.
      * intros Hs. cbn [forallb] in Hs. apply andb_true_iff in Hs.
        rewrite (Hall (proj2 Hs)), Ht. cbn [flat_map].
        now rewrite map_app, app_assoc.
    + assert (Hstep : forall w2, ticks w2 = ticks w' ->
                (exists n, ticks (snd (stream_symbol sym feed w2))
                           = ticks w ++ map (to_row sym)
                                          (flat_map session_ticks (firstn n (s :: feed))))
                /\ (forallb survivable (s :: feed) = true ->
                    ticks (snd (stream_symbol sym feed w2))
                    = ticks w ++ map (to_row sym) (flat_map session_ticks (s :: feed)))).
      { intros w2 H2. destruct (IH w2) as [[n Hn] Hall]. cbv zeta in Hn, Hall. split.
        - exists (S n). rewrite Hn, H2, Ht. cbn [firstn flat_map].
          now rewrite map_app, app_assoc.
        - intros Hs. cbn [forallb] in Hs. apply andb_true_iff in Hs.
          rewrite (Hall (proj2 Hs)), H2, Ht. cbn [flat_map].
          now rewrite map_app, app_assoc. }
      destruct (is_connection_lost e); [apply Hstep; reflexivity |].
      destruct (is_Exception e) eqn:Ex; [apply Hstep; reflexivity |].
      cbv zeta. cbn [fst snd]. split.
      * exists 1%nat. rewrite Ht. cbn [firstn flat_map]. now rewrite app_nil_r.
      * intros Hs. cbn [forallb] in Hs. apply andb_true_iff in Hs.
        destruct Hs as [Hs _]. unfold Ingestor.survivable in Hs.
        destruct (session_error s) as [e' |]; [| discriminate].
        inversion Hr; subst e'. congruence.
Qed.

End ConnectorTable.

Section ConnectorMessages.

Import Ingestor.

Variable float_of_text : string -> option float.
Variable fromtimestamp_isoformat : float -> result string.

Local Abbreviation decode := (decode float_of_text fromtimestamp_isoformat).
Local Abbreviation normalize := (normalize float_of_text fromtimestamp_isoformat).
Local Abbreviation py_float := (py_float float_of_text).
Local Abbreviation connect_and_receive := (connect_and_receive float_of_text fromtimestamp_isoformat).
Local Abbreviation stream_symbol := (stream_symbol float_of_text fromtimestamp_isoformat).
Local Abbreviation session_error := (session_error float_of_text fromtimestamp_isoformat).
Local Abbreviation first_error := (first_error float_of_text fromtimestamp_isoformat).
Local Abbreviation survivable := (survivable float_of_text fromtimestamp_isoformat).

Lemma bind_raises {X Y} (r : result X) (k : X -> result Y) (e : exn) :
  Py.bind r k = Raise e -> r = Raise e \/ exists a, r = Ok a /\ k a = Raise e.
Proof.
  destruct r as [a | e']; simpl; intros H; [right; eauto | left].
  inversion H. reflexivity.
Qed.


Lemma get_raises (data : json) (key : string) (default : json) (e : exn) :
  get data key default = Raise e -> is_Exception e = true.
Proof. destruct data; simpl; intros H; inversion H; reflexivity. Qed.

Lemma getitem_raises (msg : json) (key : string) (e : exn) :
  getitem msg key = Raise e -> is_Exception e = true.
Proof.
  destruct msg; simpl; intros H; try (inversion H; reflexivity).
  destruct (dict_lookup items key); inversion H; reflexivity.
Qed.

Lemma float_of_Z_raises (z : Z) (e : exn) :
  float_of_Z z = Raise e -> is_Exception e = true.
Proof.
  unfold float_of_Z. destruct (isinf _); intros H; inversion H; reflexivity.
Qed.

Lemma py_float_raises (v : json) (e : exn) :
  py_float v = Raise e -> is_Exception e = true.
Proof.
  destruct v; simpl; intros H; try (inversion H; reflexivity).
  - now apply float_of_Z_raises in H.
  - destruct (float_of_text s); inversion H; reflexivity.
Qed.

Lemma div_1000_raises (v : json) (e : exn) :
  div_1000 v = Raise e -> is_Exception e = true.
Proof.
  destruct v; simpl; intros H; try (inversion H; reflexivity).
  apply bind_raises in H. destruct H as [H | (a & _ & H)].
  - now apply float_of_Z_raises in H.
  - discriminate.
Qed.

Hypothesis clock_raises_Exception :
  forall x e, fromtimestamp_isoformat x = Raise e -> is_Exception e = true.

Lemma normalize_raises (msg : json) (e : exn) :
  normalize msg = Raise e -> is_Exception e = true.
Proof.
  unfold Ingestor.normalize. intros H.
  repeat match type of H with
         | Py.bind _ _ = Raise _ =>
             apply bind_raises in H; destruct H as [H | (? & _ & H)]
         end;
    eauto using get_raises, getitem_raises, py_float_raises, div_1000_raises;
    discriminate.
Qed.

Lemma decode_raises (m : frame) (e : exn) :
  decode m = Raise e -> is_Exception e = true.
Proof.
  unfold Ingestor.decode. intros H.
  apply bind_raises in H. destruct H as [H | (data & _ & H)].
  { destruct m; simpl in H; inversion H; reflexivity. }
  apply bind_raises in H. destruct H as [H | (kind & _ & H)].
  { now apply get_raises in H. }
  destruct (is_trade kind); [| discriminate].
  apply bind_raises in H. destruct H as [H | (t & _ & H)]; [| discriminate].
  now apply normalize_raises in H.
Qed.

Lemma first_error_Exception (inbox : list frame) (closing : option exn) (e : exn) :
  first_error inbox closing = Some e ->
  closing = Some e \/ is_Exception e = true.
Proof.
  induction inbox as [| m inbox IH]; simpl; [auto |].
  destruct (decode m) as [o | e'] eqn:E; [exact IH |].
  intros H. inversion H; subst. right. now apply decode_raises in E.
Qed.

Lemma ends_in_Exception_survivable (s : session) :
  ends_in_Exception s = true -> survivable s = true.
Proof.
  unfold Ingestor.survivable. destruct s as [e | inbox closing]; simpl; auto.
  intros H. destruct (first_error inbox closing) as [e |] eqn:E; auto.
  apply first_error_Exception in E. destruct E as [-> | E]; auto.
Qed.

Lemma survivable_feed_reconnects (sym : string) (feed : list session) (w : world) :
  forallb survivable feed = true -> fst (stream_symbol sym feed w) = Reconnecting.
Proof.
  revert w. induction feed as [| s feed IH]; intros w Hs; [reflexivity |].
  cbn [forallb] in Hs. apply andb_true_iff in Hs. destruct Hs as [Hs Hf].
  cbn [Ingestor.stream_symbol].
  pose proof (connect_and_receive_spec float_of_text fromtimestamp_isoformat sym s w)
    as [_ Hr].
  cbv zeta in Hr.
  destruct (connect_and_receive sym s w) as [[[] | e] w']; cbn [fst] in Hr.
  - now apply IH.
  - unfold Ingestor.survivable in Hs.
    destruct (session_error s) as [e' |]; [| discriminate].
    inversion Hr; subst e'. rewrite Hs.
    destruct (is_connection_lost e); now apply IH.
Qed.

(** No message can stop the connector.  If the clock conversion raises
    nothing outside [Exception], then whatever the connections deliver
    (garbage, documents of any shape, trades with missing or unreadable
    fields), a feed whose connections themselves end normally or in an
    [Exception] leaves the connector about to connect again. *)
Theorem no_message_stops_the_connector (sym : string) (feed : list session) (w : world) :
  forallb ends_in_Exception feed = true ->
  fst (stream_symbol sym feed w) = Reconnecting.
Proof.
  intros H. apply survivable_feed_reconnects.
  apply forallb_forall. intros s Hs.
  apply ends_in_Exception_survivable.
  rewrite forallb_forall in H. now apply H.
Qed.

End ConnectorMessages.

Section ConnectorNormalize.

Import Ingestor.

Variable float_of_text : string -> option float.
Variable fromtimestamp_isoformat : float -> result string.

Local Abbreviation normalize := (normalize float_of_text fromtimestamp_isoformat).
Local Abbreviation py_float := (py_float float_of_text).

(** The trade time wins over the event time: when a message has a [T]
    entry, its [E] entry plays no part in the tick, whatever it holds. *)
Theorem trade_time_is_preferred (items : list (string * json)) (v other : json) :
  dict_lookup items "T" = Some v ->
  normalize (JDict (("E"%string, other) :: items)) = normalize (JDict items).
Proof.
  intros HT. unfold Ingestor.normalize, get, getitem.
  assert (HT' : dict_lookup (("E"%string, other) :: items) "T" = Some v)
    by (unfold dict_lookup in *; cbn; exact HT).
  assert (Hp : dict_lookup (("E"%string, other) :: items) "p" = dict_lookup items "p")
    by reflexivity.
  assert (Hq : dict_lookup (("E"%string, other) :: items) "q" = dict_lookup items "q")
    by reflexivity.
  rewrite HT', HT, Hp, Hq. reflexivity.
Qed.


End ConnectorNormalize.

(** ** What an aligned bucket holds *)

Section AlignedBuckets.

Import Pandas Engine.

Variable parse : string -> option Timestamp.

Lemma sort_by_sorted_id {A} (key : A -> Z) (l : list A) :
  StronglySorted (fun a b => key a <= key b) l -> sort_by key l = l.
Proof.
  induction 1 as [| x l Hs IH Hx]; simpl; auto.
  rewrite IH. destruct l as [| y l]; simpl; auto.
  inversion Hx; subst.
  replace (key x <=? key y) with true by (symmetry; now apply Z.leb_le).
  reflexivity.
Qed.

Lemma filter_sorted {A} (R : A -> A -> Prop) (p : A -> bool) (l : list A) :
  StronglySorted R l -> StronglySorted R (filter p l).
Proof.
  induction 1 as [| x l Hs IH Hx]; simpl; [constructor |].
  destruct (p x); auto. constructor; auto.
  rewrite Forall_forall in *. intros y Hy. apply filter_In in Hy. now apply Hx.
Qed.

Lemma map_sorted {A B} (key : A -> Z) (key' : B -> Z) (G : A -> B) (l : list A) :
  (forall a, key' (G a) = key a) ->
  StronglySorted (fun a b => key a <= key b) l ->
  StronglySorted (fun a b => key' a <= key' b) (map G l).
Proof.
  intros HG. induction 1 as [| x l Hs IH Hx]; simpl; constructor; auto.
  rewrite Forall_forall in *. intros y Hy. apply in_map_iff in Hy.
  destruct Hy as [a [<- Ha]]. rewrite !HG. now apply Hx.
Qed.

(** In a series in time order every row lies between the first and the
    last. *)
Lemma sorted_first {A} (s : Series A) (x : Timestamp * A) :
  StronglySorted (fun a b => fst a <= fst b) s -> In x s -> first_time s <= fst x.
Proof.
  intros Hs. inversion Hs as [| y s' Hs' Hy]; subst; [intros [] |].
  rewrite Forall_forall in Hy. intros [<- | Hx].
  - destruct y; simpl; lia.
  - specialize (Hy x Hx). destruct y; simpl in *; lia.
Qed.

Lemma sorted_last {A} (s : Series A) (x : Timestamp * A) :
  StronglySorted (fun a b => fst a <= fst b) s -> In x s -> fst x <= last_time s.
Proof.
  intros Hs. revert x. induction Hs as [| y s Hs IH Hy]; intros x; [intros [] |].
  rewrite Forall_forall in Hy.
  destruct s as [| z s].
  - intros [<- | []]. unfold last_time. destruct y; simpl; lia.
  - rewrite last_time_cons by discriminate. intros [<- | Hx].
    + specialize (Hy z (or_introl eq_refl)).
      specialize (IH z (or_introl eq_refl)). lia.
    + now apply IH.
Qed.

Lemma members_in {A} (f : Z) (b : Timestamp) (s : Series A) (v : A) :
  In v (members f b s) -> exists t, In (t, v) s /\ bucket f t = b.
Proof.
  unfold members, values. intros H. apply in_map_iff in H.
  destruct H as [[t v'] [<- H]]. apply filter_In in H. destruct H as [H E].
  exists t. split; [exact H |]. now apply Z.eqb_eq in E.
Qed.

(** A bin that holds a row is one of the bins of the series. *)
Lemma occupied_bin {A} (f : Z) (b : Timestamp) (s : Series A) :
  0 < f -> StronglySorted (fun a b => fst a <= fst b) s ->
  members f b s <> [] -> In b (bins f s).
Proof.
  intros Hf Hs Hm.
  destruct (members f b s) as [| v ms] eqn:E; [congruence |]. clear Hm.
  assert (Hv : In v (members f b s)) by (rewrite E; left; reflexivity).
  apply members_in in Hv. destruct Hv as (t & Ht & Hb).
  pose proof (sorted_first s (t, v) Hs Ht) as Hlo.
  pose proof (sorted_last s (t, v) Hs Ht) as Hhi. simpl in Hlo, Hhi.
  unfold bins. destruct s as [| x s]; [destruct Ht |].
  set (s' := x :: s) in *.
  apply in_map_iff. unfold bucket in *.
  pose proof (Z.div_le_mono _ _ f Hf Hlo) as H1.
  pose proof (Z.div_le_mono _ _ f Hf Hhi) as H2.
  exists (Z.to_nat (t / f - first_time s' / f)). split.
  - rewrite Z2Nat.id by lia. lia.
  - apply in_seq. split; [lia |].
    replace (last_time s' / f * f - first_time s' / f * f)
      with ((last_time s' / f - first_time s' / f) * f) by lia.
    rewrite Z.div_mul by lia. lia.
Qed.

Lemma lookup_keyed_in (g : Timestamp -> float) (l : list Timestamp) (t : Timestamp) :
  In t l -> lookup t (map (fun b => (b, g b)) l) = g t.
Proof.
  unfold lookup. induction l as [| u l IH]; [intros [] |].
  simpl. destruct (u =? t) eqn:E.
  - apply Z.eqb_eq in E. now subst.
  - intros [-> | H]; [rewrite Z.eqb_refl in E; discriminate | now apply IH].
Qed.

Lemma lookup_keyed_out (g : Timestamp -> float) (l : list Timestamp) (t : Timestamp) :
  ~ In t l -> lookup t (map (fun b => (b, g b)) l) = nan.
Proof.
  unfold lookup. induction l as [| u l IH]; [reflexivity |].
  simpl. intros H. destruct (u =? t) eqn:E.
  - apply Z.eqb_eq in E. tauto.
  - apply IH. tauto.
Qed.

(** Among prices that are all present, the last one is the one kept. *)
Lemma last_valid_last (l : list float) :
  Forall (fun x => isna x = false) l ->
  last_valid l = last l nan /\ (isna (last_valid l) = false <-> l <> []).
Proof.
  induction 1 as [| x l Hx Hl IH].
  - simpl. split; [reflexivity |]. split; [discriminate | congruence].
  - destruct IH as [IH1 IH2]. cbn [last_valid]. destruct l as [| y l].
    + simpl. rewrite Hx. split; [reflexivity |]. split; [discriminate | auto].
    + assert (Hn : isna (last_valid (y :: l)) = false) by (apply IH2; discriminate).
      rewrite Hn. split; [exact IH1 |]. split; [discriminate | auto].
Qed.

Lemma clean_sorted (df : DataFrame) :
  StronglySorted (fun a b => fst a <= fst b) (clean df).
Proof. unfold clean, sort_index. apply sort_by_sorted. Qed.

Lemma clean_prices_present (df : DataFrame) (x : Timestamp * Tick) :
  In x (clean df) -> isna (price (snd x)) = false.
Proof.
  unfold clean, sort_index. intros H.
  apply (proj1 (sort_by_in fst _ x)) in H.
  apply (set_index_ts_in parse) in H. unfold dropna_ts_price in H.
  apply filter_In in H. destruct H as [_ H].
  apply andb_true_iff in H. destruct H as [_ H].
  unfold notna in H. apply negb_true_iff in H. exact H.
Qed.

(** The resampled price column of one symbol, looked up at a label. *)
Lemma lookup_symbol_bin (name : string) (df : DataFrame) (b : Timestamp) :
  let r := resample_last one_second
             (price_column
                (by_symbol name
                   (clean (set_ts_column df (map (to_datetime parse) (ts_column df)))))) in
  (second_prices parse name b df <> [] ->
   In b (index r) /\ lookup b r = last (second_prices parse name b df) nan
   /\ isna (lookup b r) = false)
  /\ (second_prices parse name b df = [] -> isna (lookup b r) = true).
Proof.
  unfold second_prices.
  set (s := price_column (by_symbol name _)).
  assert (Hsorted : StronglySorted (fun a b => fst a <= fst b) s).
  { unfold s, price_column.
    apply (map_sorted fst fst); [reflexivity |].
    apply filter_sorted, clean_sorted. }
  assert (Hpresent : Forall (fun x => isna x = false) (members one_second b s)).
  { apply Forall_forall. intros v Hv. apply members_in in Hv.
    destruct Hv as (t & Ht & _). unfold s, price_column in Ht.
    apply in_map_iff in Ht. destruct Ht as [x [Hx Ht]]. inversion Hx; subst.
    apply filter_In in Ht. destruct Ht as [Ht _].
    now apply clean_prices_present in Ht. }
  destruct (last_valid_last _ Hpresent) as [Hlast Hnan].
  cbv zeta. unfold resample_last, resample, sort_index.
  rewrite (sort_by_sorted_id fst s Hsorted).
  set (g := fun b0 => last_valid (members one_second b0 s)).
  assert (Hidx : index (map (fun b0 => (b0, g b0)) (bins one_second s))
                 = bins one_second s).
  { unfold index. rewrite map_map. apply map_id. }
  change (map (fun b0 => (b0, last_valid (members one_second b0 s))) (bins one_second s))
    with (map (fun b0 => (b0, g b0)) (bins one_second s)).
  rewrite Hidx. split.
  - intros Hm.
    assert (Hb : In b (bins one_second s)).
    { apply occupied_bin; [reflexivity | exact Hsorted | exact Hm]. }
    rewrite (lookup_keyed_in g _ b Hb). unfold g.
    split; [exact Hb |]. split; [exact Hlast | now apply Hnan].
  - intros Hm.
    destruct (in_dec Z.eq_dec b (bins one_second s)) as [Hb | Hb].
    + rewrite (lookup_keyed_in g _ b Hb). unfold g. rewrite Hm. reflexivity.
    + rewrite (lookup_keyed_out g _ b Hb). reflexivity.
Qed.

(** What an aligned bucket is and what it holds.  The second starting at
    [b] is an aligned bucket exactly when both symbols have a valid tick in
    it, and the row then carries, for each symbol, the price of its last
    valid tick of that second. *)
Theorem aligned_bucket_holds_last_prices (df : DataFrame) (b : Timestamp) (pb pe : float) :
  In (b, (pb, pe)) (aligned parse df)
  <-> (second_prices parse "btcusdt" b df <> []
       /\ second_prices parse "ethusdt" b df <> []
       /\ pb = last (second_prices parse "btcusdt" b df) nan
       /\ pe = last (second_prices parse "ethusdt" b df) nan).
Proof.
  destruct (lookup_symbol_bin "btcusdt" df b) as [HB1 HB0].
  destruct (lookup_symbol_bin "ethusdt" df b) as [HE1 HE0].
  cbv zeta in HB1, HB0, HE1, HE0.
  unfold aligned, align, concat_axis1.
  set (c := clean _) in *.
  set (rB := resample_last one_second (price_column (by_symbol "btcusdt" c))) in *.
  set (rE := resample_last one_second (price_column (by_symbol "ethusdt" c))) in *.
  rewrite filter_In, in_map_iff. unfold both_present, notna. cbn [fst snd].
  split.
  - intros [(t & Ht & _) Hp]. inversion Ht; subst t pb pe. clear Ht.
    apply andb_true_iff in Hp. destruct Hp as [Hp1 Hp2].
    apply negb_true_iff in Hp1, Hp2.
    destruct (second_prices parse "btcusdt" b df) as [| x xs] eqn:EB.
    { rewrite HB0 in Hp1 by reflexivity. discriminate. }
    destruct (second_prices parse "ethusdt" b df) as [| y ys] eqn:EE.
    { rewrite HE0 in Hp2 by reflexivity. discriminate. }
    destruct HB1 as (_ & HB & _); [discriminate |].
    destruct HE1 as (_ & HE & _); [discriminate |].
    repeat split; try discriminate; assumption.
  - intros (HmB & HmE & -> & ->).
    destruct (HB1 HmB) as (HinB & HB & HnB).
    destruct (HE1 HmE) as (_ & HE & HnE).
    split.
    + exists b. split; [now rewrite HB, HE |].
      unfold index_union. apply sort_by_in, nodup_In, in_or_app. left. exact HinB.
    + rewrite <- HB, <- HE, HnB, HnE. reflexivity.
Qed.

End AlignedBuckets.

(** ** The further properties at sample inputs *)

Section MoreInstances.

Import Pandas.

Lemma returned_rows_have_no_nan_witness :
  Forall (fun r => isna (Engine.spread r) = false /\ isna (Engine.zscore r) = false
                   /\ isna (Engine.rolling_corr r) = false)
         (Engine.frame_rows Sample.six_seconds_window_two).
Proof.
  apply (returned_rows_have_no_nan Sample.no_text Sample.six_seconds 2).
  vm_compute. reflexivity.
Defined.

Lemma raises_only_on_negative_window_witness :
  Engine.compute_analytics Sample.no_text Sample.one_tick_each (-1) = Raise ValueError.
Proof.
  apply (proj2 (raises_only_on_negative_window Sample.no_text Sample.one_tick_each
                  (-1) ValueError)).
  split; [reflexivity |]. split; [lia |]. vm_compute. lia.
Defined.


Lemma rows_ordered_on_the_second_witness :
  StronglySorted Z.lt (map Engine.time (Engine.frame_rows Sample.six_seconds_window_two))
  /\ Forall (fun r => Engine.time r mod Engine.one_second = 0)
            (Engine.frame_rows Sample.six_seconds_window_two).
Proof.
  apply (rows_ordered_on_the_second Sample.no_text Sample.six_seconds 2).
  vm_compute. reflexivity.
Defined.

Lemma window_of_one_returns_no_rows_witness :
  Engine.compute_analytics Sample.no_text Sample.six_seconds 1 = Ok (Engine.Analytics [])
  /\ Engine.frame_rows (Engine.Analytics []) = [].
Proof.
  assert (H : Engine.compute_analytics Sample.no_text Sample.six_seconds 1
              = Ok (Engine.Analytics [])) by (vm_compute; reflexivity).
  split; [exact H |].
  exact (window_of_one_returns_no_rows Sample.no_text Sample.six_seconds _ H).
Defined.

Lemma warm_up_buckets_suppressed_witness :
  Forall (fun r => In (Engine.time r)
                     (index (skipn 1 (Engine.aligned Sample.no_text Sample.six_seconds))))
         (Engine.frame_rows Sample.six_seconds_window_two)
  /\ (length (Engine.frame_rows Sample.six_seconds_window_two)
      <= length (Engine.aligned Sample.no_text Sample.six_seconds) - 1)%nat.
Proof.
  apply (warm_up_buckets_suppressed Sample.no_text Sample.six_seconds 2).
  - vm_compute. reflexivity.
  - vm_compute. discriminate.
Defined.

Lemma symbols_match_without_case_witness :
  Engine.compute_analytics Sample.no_text
    (map (Engine.rename_symbol LiveView.str_upper) Sample.six_seconds) 2
  = Engine.compute_analytics Sample.no_text Sample.six_seconds 2.
Proof.
  apply (symbols_match_without_case Sample.no_text LiveView.str_upper).
  exact str_lower_upper.
Defined.

Lemma aligned_bucket_holds_last_prices_witness :
  In (Sample.nine_oclock + 3 * Engine.one_second, (104%float, 51%float))
     (Engine.aligned Sample.no_text Sample.six_seconds).
Proof.
  apply (proj2 (aligned_bucket_holds_last_prices Sample.no_text Sample.six_seconds
                  (Sample.nine_oclock + 3 * Engine.one_second) 104%float 51%float)).
  repeat split; vm_compute; try discriminate; reflexivity.
Defined.

Lemma live_view_output_shape_witness :
  (1 <= length (LiveView.df_pair Sample.one_bar_output))%nat
  /\ StronglySorted Z.lt (index (LiveView.df_pair Sample.one_bar_output))
  /\ Forall (fun r => isna (fst (snd r)) = false /\ isna (snd (snd r)) = false)
            (LiveView.df_pair Sample.one_bar_output)
  /\ LiveView.spread Sample.one_bar_output
     = map (fun r => (fst (snd r)
                      - LiveView.hedge_ratio Sample.one_bar_output * snd (snd r))%float)
           (LiveView.df_pair Sample.one_bar_output)
  /\ length (LiveView.zscore Sample.one_bar_output)
     = length (LiveView.df_pair Sample.one_bar_output)
  /\ length (LiveView.rolling_corr Sample.one_bar_output)
     = length (LiveView.df_pair Sample.one_bar_output)
  /\ Forall (fun z => isna z = false) (LiveView.zscore Sample.one_bar_output).
Proof.
  apply (live_view_output_shape Sample.slope_two Sample.bars_btc Sample.bars_eth 10).
  vm_compute. reflexivity.
Defined.

Lemma bars_lie_on_the_grid_witness :
  StronglySorted Z.lt (index Sample.six_seconds_btc_bars)
  /\ Forall (fun r => fst r mod LiveView.freq LiveView.tf_1s = 0
                      /\ isna (fst (snd r)) = false /\ isna (snd (snd r)) = false)
            Sample.six_seconds_btc_bars.
Proof.
  apply (bars_lie_on_the_grid Sample.six_seconds "btcusdt" LiveView.tf_1s).
  vm_compute. reflexivity.
Defined.

Lemma no_alert_before_window_full_witness :
  LiveView.record_alert "09:00:03" Sample.keep_digits "btcusdt" "ethusdt" 2%float
    (LiveView.zscore Sample.one_bar_output) []
  = [].
Proof.
  apply (no_alert_before_window_full Sample.slope_two "09:00:03" Sample.keep_digits
           Sample.bars_btc Sample.bars_eth 10 Sample.one_bar_output).
  - vm_compute. reflexivity.
  - vm_compute. reflexivity.
  - vm_compute. reflexivity.
Defined.

Lemma table_holds_the_trades_read_witness :
  Ingestor.ticks
    (snd (Ingestor.stream_symbol Sample.read_float Sample.render_time "btcusdt"
            Sample.rough_feed Sample.fresh))
  = [Sample.trade_row; Sample.trade_row].
Proof.
  apply (proj2 (table_holds_the_trades_read Sample.read_float Sample.render_time
                  "btcusdt" Sample.rough_feed Sample.fresh)).
  vm_compute. reflexivity.
Defined.

Lemma no_message_stops_the_connector_witness :
  fst (Ingestor.stream_symbol Sample.read_float Sample.render_time "btcusdt"
         Sample.rough_feed Sample.fresh)
  = Ingestor.Reconnecting.
Proof.
  apply (no_message_stops_the_connector Sample.read_float Sample.render_time).
  - intros x e. unfold Sample.render_time.
    destruct (PrimFloat.eqb x 1704099600%float); intros H; inversion H; reflexivity.
  - vm_compute. reflexivity.
Defined.

Lemma trade_time_is_preferred_witness :
  Ingestor.normalize Sample.read_float Sample.render_time
    (Ingestor.JDict (("E"%string, Ingestor.JNull) :: Sample.trade_items))
  = Ingestor.normalize Sample.read_float Sample.render_time
      (Ingestor.JDict Sample.trade_items).
Proof.
  apply (trade_time_is_preferred Sample.read_float Sample.render_time
           Sample.trade_items (Ingestor.JInt 1704099600000)).
  vm_compute. reflexivity.
Defined.


End MoreInstances.
